(** * Run log retrieval of flotilla-os: orchestrator and CloudWatch client

    A shallow embedding of
      - [services/logs.go]: the run log orchestrator [logService], and
      - the Go source of package [logs] (the [ECSCloudWatchLogsClient]),
    followed by the properties the specification states about them.

    Go values are modelled as follows.  A [string] is a [String.string]
    (a sequence of bytes), an [int64] is a [Z] (no arithmetic is done on
    one), a pointer that the code tests against [nil] is an [option], a
    struct is a [Record], an [error] is a value of the inductive type
    [error] and the [nil] error is [None].  Every call through an interface
    ([state.Manager], [logs.Client], the CloudWatch SDK client, the logger)
    is an effect: it runs on an explicit world state and is appended to a
    trace of calls, so that "the backend is not contacted" is a statement
    about the trace.  A run-time panic (a [nil] dereference, an index out of
    range) is the outcome [Panics]. *)

From Stdlib Require Import String Ascii List ZArith Bool Lia.
From Stdlib Require Import Permutation Sorted.
Import ListNotations.

Local Open Scope list_scope.
Local Open Scope string_scope.

(* ================================================================== *)
(** ** Data model *)
(* ================================================================== *)

(** Go's [error] values, as far as the two files build or inspect them. *)
Inductive error : Type :=
| AwsError (code : string) (text : string)
    (* an [awserr.Error]: [Code()] and the text of [Error()] *)
| PlainError (text : string)
    (* any other error a collaborator hands back *)
| MissingResource (ErrorString : string)
    (* [exceptions.MissingResource{...}] *)
| Wrap (cause : error) (message : string)
    (* [errors.Wrap] and [errors.Wrapf], the format already applied *)
| Errorf (message : string).
    (* [errors.Errorf] *)

(** [err.Error()]. *)
Fixpoint Error (e : error) : string :=
  match e with
  | AwsError _ text => text
  | PlainError text => text
  | MissingResource s => s
  | Wrap cause message => message ++ ": " ++ Error cause
  | Errorf message => message
  end.

Module state.

(** Modelled from the spec: package [state] is not among the sources; the
    records below carry the fields and methods that [services/logs.go] and
    the CloudWatch client read ("run identifier, current lifecycle status,
    optional executable-type tag, optional executable identifier, a
    definition identifier, an engine tag, and an opaque backend task
    handle"; "at minimum a container/process name"). *)
Record Run : Type := {
  RunID : string;
  Status : string;
  ExecutableType : option string;
  ExecutableID : option string;
  DefinitionID : string;
  Engine : option string;
  TaskArn : string
}.

Record ExecutableResources : Type := { ContainerName : string }.

(** A non-[nil] value of the interface [state.Executable]; the [nil]
    interface value is [None : option Executable]. *)
Record Executable : Type := {
  GetExecutableID : string;
  GetExecutableResources : ExecutableResources
}.

(** Modelled from the spec: the constants of package [state] that the
    orchestrator compares against; their values are not under src/, so they
    are parameters. *)
Class Constants : Type := {
  StatusRunning : string;
  StatusStopped : string;
  ExecutableTypeDefinition : string;
  ECSEngine : string
}.

End state.
Import state.

(** [http.ResponseWriter]: an opaque handle of the sink; what is written to
    it lives in the world state. *)
Inductive ResponseWriter : Type := Sink (handle : nat).

Module cloudwatchlogs.

Record GetLogEventsInput : Type := {
  LogGroupName : string;
  LogStreamName : string;
  StartFromHead : bool;
  NextToken : option string
}.

Record OutputLogEvent : Type := {
  Timestamp : Z;
  Message : string
}.

Record GetLogEventsOutput : Type := {
  Events : list OutputLogEvent;
  NextForwardToken : option string
}.

Record LogGroup : Type := { GroupName : string }.

Record DescribeLogGroupsOutput : Type := { LogGroups : list LogGroup }.

End cloudwatchlogs.
Import cloudwatchlogs.

(* ================================================================== *)
(** ** Effects: world state, trace of calls, panics *)
(* ================================================================== *)

(** One entry per call through an interface, with its arguments. *)
Inductive Call : Type :=
| SmGetRun (runID : string)
| SmGetExecutableByTypeAndID (t : string) (id : string)
| LcLogs (executable : option Executable) (run : Run) (lastSeen : option string)
| LcLogsText (executable : option Executable) (run : Run) (w : ResponseWriter)
| AwsGetLogEvents (args : GetLogEventsInput)
| AwsDescribeLogGroups (LogGroupNamePrefix : string)
| AwsCreateLogGroup (name : string)
| AwsPutRetentionPolicy (name : string) (RetentionInDays : Z)
| LoggerPrintf (executable_id : string) (run_id : string) (err : error).

Inductive outcome (A : Type) : Type :=
| Returns (a : A)
| Panics.
Arguments Returns {A} a.
Arguments Panics {A}.

Section Effects.

Context {W : Type}.

(** A computation runs on the world, and yields its outcome, the world it
    leaves and the calls it made, in order.  It cannot read the trace. *)
Definition M (A : Type) : Type := W -> outcome A * W * list Call.

Definition ret {A} (a : A) : M A := fun w => (Returns a, w, []).

Definition bind {A B} (m : M A) (k : A -> M B) : M B :=
  fun w =>
    match m w with
    | (Returns a, w1, t1) =>
        match k a w1 with
        | (o, w2, t2) => (o, w2, (t1 ++ t2)%list)
        end
    | (Panics, w1, t1) => (Panics, w1, t1)
    end.

Definition panic {A} : M A := fun w => (Panics, w, []).

(** The outcome of a pure expression that may panic. *)
Definition lift {A} (o : outcome A) : M A := fun w => (o, w, []).

(** A call of a collaborator's primitive [op]. *)
Definition call {A} (c : Call) (op : W -> A * W) : M A :=
  fun w => let (a, w') := op w in (Returns a, w', [c]).

(** A call of an interface method that is itself a computation. *)
Definition invoke {A} (c : Call) (m : M A) : M A :=
  fun w => match m w with (o, w', t) => (o, w', c :: t) end.

(** [*p] for a pointer [p]. *)
Definition deref {A} (p : option A) : M A :=
  match p with
  | Some a => ret a
  | None => panic
  end.

End Effects.

(** The calls that reach the log backend client, and those that create a
    log group. *)
Definition isClientCall (c : Call) : bool :=
  match c with
  | LcLogs _ _ _ | LcLogsText _ _ _ => true
  | _ => false
  end.

Definition isCreateLogGroup (c : Call) : bool :=
  match c with
  | AwsCreateLogGroup _ => true
  | _ => false
  end.

Definition isMutation (c : Call) : bool :=
  match c with
  | AwsCreateLogGroup _ | AwsPutRetentionPolicy _ _ => true
  | _ => false
  end.

Arguments M W A : clear implicits.

Declare Scope go_scope.
Delimit Scope go_scope with go.
Notation "x <- m ;; k" := (bind m (fun x => k))
  (at level 61, m at next level, right associativity) : go_scope.
Notation "' p <- m ;; k" := (bind m (fun x => match x with p => k end))
  (at level 61, p pattern, m at next level, right associativity) : go_scope.
Local Open Scope go_scope.

(* ================================================================== *)
(** ** The interfaces *)
(* ================================================================== *)

(** [state.Manager], the two methods the orchestrator calls.  Each returns
    Go's pair of a value and an error. *)
Class Manager (W : Type) : Type := {
  GetRun : string -> W -> (Run * option error) * W;
  GetExecutableByTypeAndID :
    string -> string -> W -> (option Executable * option error) * W
}.

(** [logs.Client], the two methods the orchestrator calls. *)
Class Client (W : Type) : Type := {
  ClientLogs :
    option Executable -> Run -> option string ->
    M W (string * option string * option error);
  ClientLogsText :
    option Executable -> Run -> ResponseWriter -> M W (option error)
}.

(** [logsClient], the part of the CloudWatch SDK the client calls. *)
Class logsClient (W : Type) : Type := {
  GetLogEvents :
    GetLogEventsInput -> W -> (GetLogEventsOutput * option error) * W;
  DescribeLogGroups :
    string -> W -> (DescribeLogGroupsOutput * option error) * W;
  CreateLogGroup : string -> W -> option error * W;
  PutRetentionPolicy : string -> Z -> W -> option error * W
}.

(** What the client takes from the AWS SDK and Go's library besides the
    service calls: an error code, the throttle test and [sort.Sort]. *)
Class Runtime : Type := {
  ErrCodeResourceNotFoundException : string;
  IsErrorThrottle : error -> bool;
  sort_Sort : forall A : Type, (A -> A -> bool) -> list A -> list A
}.
Arguments sort_Sort {_ A} less data.

(** Modelled from the spec: [config.Config], "a configuration provider
    exposing named string/int lookups"; the three methods [Initialize]
    calls.  A Go [map[string]string] is an association list read by
    [mapLookup]. *)
Class Config : Type := {
  GetStringMapString : string -> list (string * string);
  GetString : string -> string;
  GetInt : string -> Z
}.

(** [session.NewSession] for a region: the error it returns, if any. *)
Class Sessions : Type := {
  NewSession : string -> option error
}.

(** [v, ok := m[key]]: [Some v] when the key is present. *)
Fixpoint mapLookup (m : list (string * string)) (key : string)
  : option string :=
  match m with
  | [] => None
  | (k, v) :: rest => if k =? key then Some v else mapLookup rest key
  end.

(** [m[key]]: the zero value [""] when the key is absent. *)
Definition mapIndex (m : list (string * string)) (key : string) : string :=
  match mapLookup m key with
  | Some v => v
  | None => ""
  end.

(* ================================================================== *)
(** ** services/logs.go *)
(* ================================================================== *)

Module services.
Section LogService.

Context {W : Type} {K : Constants} {sm : Manager W} {lc : Client W}.

  (** [run.Status != state.StatusRunning && run.Status != state.StatusStopped] *)
Definition wontHaveLogsYet (run : Run) : bool :=
    negb (Status run =? StatusRunning) && negb (Status run =? StatusStopped).

  (** Lines 35-38: [if run.ExecutableType == nil { ... }]. *)
Definition defaultExecutableType (run : Run) : Run :=
    match ExecutableType run with
    | None =>
        {| RunID := RunID run; Status := Status run;
           ExecutableType := Some ExecutableTypeDefinition;
           ExecutableID := ExecutableID run;
           DefinitionID := DefinitionID run;
           Engine := Engine run; TaskArn := TaskArn run |}
    | Some _ => run
    end.

  (** Lines 40-42: [if run.ExecutableID == nil { ... }]. *)
Definition defaultExecutableID (run : Run) : Run :=
    match ExecutableID run with
    | None =>
        {| RunID := RunID run; Status := Status run;
           ExecutableType := ExecutableType run;
           ExecutableID := Some (DefinitionID run);
           DefinitionID := DefinitionID run;
           Engine := Engine run; TaskArn := TaskArn run |}
    | Some _ => run
    end.

Definition Logs (runID : string) (lastSeen : option string)
    : M W (string * option string * option error) :=
    '(run, err) <- call (SmGetRun runID) (GetRun runID) ;;
    match err with
    | Some _ => ret ("", None, err)
    | None =>
        if wontHaveLogsYet run then
          (* Won't have logs yet *)
          ret ("", None, None)
        else
          let run := defaultExecutableType run in
          let run := defaultExecutableID run in
          t <- deref (ExecutableType run) ;;
          id <- deref (ExecutableID run) ;;
          '(executable, err) <-
            call (SmGetExecutableByTypeAndID t id)
                 (GetExecutableByTypeAndID t id) ;;
          isECS <- match err with
                   | None => ret false
                   | Some _ =>
                       engine <- deref (Engine run) ;;
                       ret (engine =? ECSEngine)
                   end ;;
          if isECS then ret ("", None, err)
          else invoke (LcLogs executable run lastSeen)
                      (ClientLogs executable run lastSeen)
    end.

Definition LogsText (runID : string) (w : ResponseWriter)
    : M W (option error) :=
    '(run, err) <- call (SmGetRun runID) (GetRun runID) ;;
    match err with
    | Some _ => ret err
    | None =>
        if wontHaveLogsYet run then
          (* Won't have logs yet *)
          ret None
        else
          let run := defaultExecutableType run in
          let run := defaultExecutableID run in
          t <- deref (ExecutableType run) ;;
          id <- deref (ExecutableID run) ;;
          '(executable, _) <-
            call (SmGetExecutableByTypeAndID t id)
                 (GetExecutableByTypeAndID t id) ;;
          invoke (LcLogsText executable run w)
                 (ClientLogsText executable run w)
    end.

End LogService.
End services.

(* ================================================================== *)
(** ** Package logs: the ECS CloudWatch client *)
(* ================================================================== *)

Module logs.

(** The configuration fields of the struct; its [logsClient] is the
    [logsClient] instance in scope and its [logger] the [LoggerPrintf]
    effect. *)
Record ECSCloudWatchLogsClient : Type := {
  logRetentionInDays : Z;
  logNamespace : string;
  logStreamPrefix : string
}.

Definition Name (cwl : ECSCloudWatchLogsClient) : string := "ecs-cloudwatch".

(** The one-byte string Go writes ["\n"]. *)
Definition newline : string := String (ascii_of_nat 10) EmptyString.

(** [strings.Split(s, sep)] for a separator of one byte, the only use the
    client makes of it ([sep] is ["/"]). *)
Fixpoint strings_Split (s : string) (sep : ascii) : list string :=
  match s with
  | EmptyString => [EmptyString]
  | String c rest =>
      if Ascii.eqb c sep then EmptyString :: strings_Split rest sep
      else
        match strings_Split rest sep with
        | first :: others => String c first :: others
        | [] => [String c EmptyString]
        end
  end.

(** [strings.Join(elems, sep)]. *)
Definition strings_Join (elems : list string) (sep : string) : string :=
  String.concat sep elems.

(** Modelled from the spec: the type [byTimestamp], the [sort.Interface]
    over a slice of events that [logsToMessage] sorts with, is declared in a
    file that is not among the sources; its [Less] follows "sort ascending by
    timestamp". *)
Definition byTimestamp_Less (a b : OutputLogEvent) : bool :=
  (Timestamp a <? Timestamp b)%Z.

(** [for _, group := range groups { if *group.LogGroupName == name { return true } }]. *)
Fixpoint anyGroupNamed (name : string) (groups : list LogGroup) : bool :=
  match groups with
  | [] => false
  | group :: rest =>
      if GroupName group =? name then true else anyGroupNamed name rest
  end.

Definition LogsText {W : Type} (cwl : ECSCloudWatchLogsClient)
  (executable : option Executable) (run : Run) (w : ResponseWriter)
  : M W (option error) :=
  ret (Some (Errorf "ECSCloudWatchLogsClient does not support LogsText method.")).

Section Client.

Context {W : Type} {aws : logsClient W} {rt : Runtime}.
Variable cwl : ECSCloudWatchLogsClient.

Definition toStreamName (executable : option Executable) (run : Run)
  : outcome string :=
  let arnSplits := strings_Split (TaskArn run) "/"%char in
  match executable with
  | None => Panics
  | Some e =>
      match nth_error arnSplits (length arnSplits - 1) with
      | None => Panics
      | Some segment =>
          Returns (logStreamPrefix cwl ++ "/"
                   ++ ContainerName (GetExecutableResources e) ++ "/"
                   ++ segment)
      end
  end.

Definition logsToMessage (events : list OutputLogEvent) : string :=
  let events := sort_Sort byTimestamp_Less events in
  let messages := map Message events in
  strings_Join messages newline.

(** The request [Logs] builds: [StartFromHead] is always set, [NextToken]
    only for a cursor that is neither [nil] nor empty. *)
Definition getLogEventsInput (handle : string) (lastSeen : option string)
  : GetLogEventsInput :=
  let startFromHead := true in
  let args := {| LogGroupName := logNamespace cwl;
                 LogStreamName := handle;
                 StartFromHead := startFromHead;
                 NextToken := None |} in
  match lastSeen with
  | Some token =>
      if (0 <? String.length token)%nat then
        {| LogGroupName := LogGroupName args;
           LogStreamName := LogStreamName args;
           StartFromHead := StartFromHead args;
           NextToken := lastSeen |}
      else args
  | None => args
  end.

Definition Logs (executable : option Executable) (run : Run)
  (lastSeen : option string) : M W (string * option string * option error) :=
  handle <- lift (toStreamName executable run) ;;
  let args := getLogEventsInput handle lastSeen in
  '(result, err) <- call (AwsGetLogEvents args) (GetLogEvents args) ;;
  match err with
  | Some e =>
      match e with
      | AwsError code _ =>
          if code =? ErrCodeResourceNotFoundException then
            ret ("", None, Some (MissingResource (Error e)))
          else if IsErrorThrottle e then
            x <- deref executable ;;
            _ <- call (LoggerPrintf (GetExecutableID x) (RunID run) e)
                      (fun w => (tt, w)) ;;
            ret ("", lastSeen, None)
          else ret ("", None, Some (Wrap e "problem getting logs"))
      | _ => ret ("", None, Some (Wrap e "problem getting logs"))
      end
  | None =>
      if (length (Events result) =? 0)%nat then
        ret ("", NextForwardToken result, None)
      else
        let message := logsToMessage (Events result) in
        ret (message, NextForwardToken result, None)
  end.

Definition namespaceExists : M W (bool * option error) :=
  '(result, err) <- call (AwsDescribeLogGroups (logNamespace cwl))
                         (DescribeLogGroups (logNamespace cwl)) ;;
  match err with
  | Some e =>
      ret (false,
           Some (Wrap e ("problem describing log groups with prefix ["
                         ++ logNamespace cwl ++ "]")))
  | None =>
      if (length (LogGroups result) =? 0)%nat then ret (false, None)
      else ret (anyGroupNamed (logNamespace cwl) (LogGroups result), None)
  end.

Definition createNamespace : M W (option error) :=
  err <- call (AwsCreateLogGroup (logNamespace cwl))
              (CreateLogGroup (logNamespace cwl)) ;;
  match err with
  | Some e =>
      ret (Some (Wrap e ("problem creating log group with log group name ["
                         ++ logNamespace cwl ++ "]")))
  | None =>
      err <- call (AwsPutRetentionPolicy (logNamespace cwl)
                                         (logRetentionInDays cwl))
                  (PutRetentionPolicy (logNamespace cwl)
                                      (logRetentionInDays cwl)) ;;
      match err with
      | Some e =>
          ret (Some (Wrap e
                 ("problem setting log group retention policy for log group name ["
                  ++ logNamespace cwl ++ "]")))
      | None => ret None
      end
  end.

Definition createNamespaceIfNotExists : M W (option error) :=
  '(exists_, err) <- namespaceExists ;;
  match err with
  | Some e =>
      ret (Some (Wrap e ("problem checking if log namespace ["
                         ++ logNamespace cwl ++ "] exists")))
  | None =>
      if negb exists_ then createNamespace else ret None
  end.

(** [ECSCloudWatchLogsClient] implements [logs.Client]. *)
Definition asClient : Client W :=
  {| ClientLogs := Logs; ClientLogsText := LogsText cwl |}.

End Client.

(** The struct [Initialize] works on: the configuration fields, and whether
    its [logsClient] and its [logger] hold a value (a test sets the client
    before it calls [Initialize]). *)
Record receiver : Type := {
  fields : ECSCloudWatchLogsClient;
  logsClientSet : bool;
  loggerSet : bool
}.

Section Initialization.

Context {W : Type} {aws : logsClient W} {conf : Config} {sessions : Sessions}.

(** [Initialize] assigns the fields of its receiver as it goes and returns
    an error; the receiver it leaves is returned with the error.
    [session.Must] panics on an error of [NewSession], and so does the call
    of a method of a nil [logsClient]. *)
Definition Initialize (cwl : receiver)
  : M W (receiver * option error) :=
  let confLogOptions := GetStringMapString "ecs.log.driver.options" in
  let awsRegion := mapIndex confLogOptions "awslogs-region" in
  let awsRegion :=
    if (String.length awsRegion =? 0)%nat then GetString "aws_default_region"
    else awsRegion in
  if (String.length awsRegion =? 0)%nat then
    ret (cwl, Some (Errorf
      "ECSCloudWatchLogsClient needs one of [ecs.log.driver.options.awslogs-region] or [aws_default_region] set in config"))
  else
    (* log.namespace in conf takes precedence over
       log.driver.options.awslogs-group *)
    let namespace := GetString "ecs.log.namespace" in
    let namespace :=
      match mapLookup confLogOptions "awslogs-group" with
      | Some group =>
          if (String.length namespace =? 0)%nat then group else namespace
      | None => namespace
      end in
    let cwl :=
      {| fields := {| logRetentionInDays := logRetentionInDays (fields cwl);
                      logNamespace := namespace;
                      logStreamPrefix := logStreamPrefix (fields cwl) |};
         logsClientSet := logsClientSet cwl;
         loggerSet := loggerSet cwl |} in
    if (String.length namespace =? 0)%nat then
      ret (cwl, Some (Errorf
        "ECSCloudWatchLogsClient needs one of [ecs.log.driver.options.awslogs-group] or [ecs.log.namespace] set in config"))
    else
      let prefix := mapIndex confLogOptions "awslogs-stream-prefix" in
      let cwl :=
        {| fields := {| logRetentionInDays := logRetentionInDays (fields cwl);
                        logNamespace := namespace;
                        logStreamPrefix := prefix |};
           logsClientSet := logsClientSet cwl;
           loggerSet := loggerSet cwl |} in
      if (String.length prefix =? 0)%nat then
        ret (cwl, Some (Errorf
          "ECSCloudWatchLogsClient needs [ecs.log.driver.options.awslogs-stream-prefix] set in config"))
      else
        let days := GetInt "ecs.log.retention_days" in
        let days := if (days =? 0)%Z then 30%Z else days in
        let configured :=
          {| logRetentionInDays := days;
             logNamespace := namespace;
             logStreamPrefix := prefix |} in
        let flotillaMode := GetString "flotilla_mode" in
        connected <-
          (if negb (flotillaMode =? "test") then
             match NewSession awsRegion with
             | Some _ => panic
             | None => ret true
             end
           else ret (logsClientSet cwl)) ;;
        let cwl := {| fields := configured;
                      logsClientSet := connected;
                      loggerSet := true |} in
        err <- (if connected then createNamespaceIfNotExists configured
                else panic) ;;
        ret (cwl, err).

End Initialization.
End logs.

(* ================================================================== *)
(** ** Contracts of the collaborators *)
(* ================================================================== *)

(** [sort.Sort] with a [Less] that is a strict weak order returns the same
    elements, none of them [Less] than an earlier one.  The order of
    elements that compare equal is left open: [sort.Sort] is not stable. *)
Definition SortContract (rt : Runtime) : Prop :=
  forall (A : Type) (less : A -> A -> bool) (data : list A),
    (forall x y, less x y = true -> less y x = false) ->
    (forall x y z, less x y = false -> less y z = false -> less x z = false) ->
    Permutation data (sort_Sort less data) /\
    StronglySorted (fun a b => less b a = false) (sort_Sort less data).

(** [request.IsErrorThrottle] holds of an [awserr.Error] whose code is one
    of the SDK's throttle codes only; "resource not found" is none of them. *)
Definition ThrottleContract (rt : Runtime) : Prop :=
  forall e, IsErrorThrottle e = true ->
    exists code text,
      e = AwsError code text /\ code <> ErrCodeResourceNotFoundException.

(** A log backend that answers: [groups] is the set of log groups it holds;
    describing never fails, changes nothing and lists a group of exactly
    the queried name when there is one; a creation that succeeds leaves the
    group in place, and setting a retention policy removes no group. *)
Record ProvisioningContract {W : Type} (aws : logsClient W)
  (groups : W -> list string) : Prop := {
  describe_lists :
    forall name w, exists out,
      DescribeLogGroups name w = ((out, None), w) /\
      (In name (groups w) -> In {| GroupName := name |} (LogGroups out));
  create_adds :
    forall name w w',
      CreateLogGroup name w = (None, w') -> In name (groups w');
  retention_keeps :
    forall name days w r w',
      PutRetentionPolicy name days w = (r, w') ->
      forall n, In n (groups w) -> In n (groups w')
}.

(* ================================================================== *)
(** ** Notions of the specification *)
(* ================================================================== *)

(** The run [r] with its executable type and identifier written out as the
    definition type and the definition identifier of [r]. *)
Definition explicitExecutable {K : Constants} (r : Run) : Run :=
  {| RunID := RunID r; Status := Status r;
     ExecutableType := Some ExecutableTypeDefinition;
     ExecutableID := Some (DefinitionID r);
     DefinitionID := DefinitionID r;
     Engine := Engine r; TaskArn := TaskArn r |}.

(** [segment] is the final [sep]-separated segment of [s]: it holds no
    separator and is either all of [s] or what follows a separator of [s]. *)
Definition finalSegment (sep : ascii) (s segment : string) : Prop :=
  ~ In sep (list_ascii_of_string segment) /\
  (s = segment \/ exists before, s = before ++ String sep segment).

(** The settings [Initialize] works with, as the configuration gives them:
    the region (the log driver option, else the default region), the
    namespace (the configured namespace, else the log driver's group), the
    stream prefix and the retention (30 days when unset or zero). *)
Definition regionOf (conf : Config) : string :=
  match mapLookup (GetStringMapString "ecs.log.driver.options")
                  "awslogs-region" with
  | Some (String c r) => String c r
  | _ => GetString "aws_default_region"
  end.

Definition namespaceOf (conf : Config) : string :=
  match GetString "ecs.log.namespace" with
  | String c n => String c n
  | EmptyString =>
      match mapLookup (GetStringMapString "ecs.log.driver.options")
                      "awslogs-group" with
      | Some group => group
      | None => ""
      end
  end.

Definition prefixOf (conf : Config) : string :=
  match mapLookup (GetStringMapString "ecs.log.driver.options")
                  "awslogs-stream-prefix" with
  | Some p => p
  | None => ""
  end.

Definition retentionOf (conf : Config) : Z :=
  if (GetInt "ecs.log.retention_days" =? 0)%Z then 30%Z
  else GetInt "ecs.log.retention_days".

Definition configuredBy (conf : Config) : logs.ECSCloudWatchLogsClient :=
  {| logs.logRetentionInDays := retentionOf conf;
     logs.logNamespace := namespaceOf conf;
     logs.logStreamPrefix := prefixOf conf |}.

(** The calls that are a log line of the client. *)
Definition isLogLine (c : Call) : bool :=
  match c with
  | LoggerPrintf _ _ _ => true
  | _ => false
  end.

(** A page of events in ascending order of timestamp. *)
Definition ascending (events : list OutputLogEvent) : Prop :=
  StronglySorted (fun a b => (Timestamp a <= Timestamp b)%Z) events.

(* ================================================================== *)
(** ** Test doubles: concrete collaborators to run the code on *)
(* ================================================================== *)

Module fake.

(** The world of the doubles: the names of the log groups of the backend. *)
Definition World : Type := list string.

Definition constants : Constants :=
  {| StatusRunning := "RUNNING";
     StatusStopped := "STOPPED";
     ExecutableTypeDefinition := "task_definition";
     ECSEngine := "ecs" |}.

Definition noRun : Run :=
  {| RunID := ""; Status := ""; ExecutableType := None; ExecutableID := None;
     DefinitionID := ""; Engine := None; TaskArn := "" |}.

Fixpoint findRun (runID : string) (runs : list Run) : option Run :=
  match runs with
  | [] => None
  | r :: rest => if RunID r =? runID then Some r else findRun runID rest
  end.

Fixpoint findExecutable (t id : string)
  (table : list (string * string * Executable)) : option Executable :=
  match table with
  | [] => None
  | (t', id', e) :: rest =>
      if (t' =? t) && (id' =? id) then Some e else findExecutable t id rest
  end.

(** A state manager over a fixed table of runs and of executables. *)
Definition manager (runs : list Run)
  (table : list (string * string * Executable)) : Manager World :=
  {| GetRun := fun runID w =>
       match findRun runID runs with
       | Some r => ((r, None), w)
       | None => ((noRun, Some (MissingResource "no such run")), w)
       end;
     GetExecutableByTypeAndID := fun t id w =>
       match findExecutable t id table with
       | Some e => ((Some e, None), w)
       | None => ((None, Some (MissingResource "no such executable")), w)
       end |}.

(** A CloudWatch double: [fetch] answers [GetLogEvents]; the log groups
    are the world. *)
Definition cloudwatch
  (fetch : GetLogEventsInput -> GetLogEventsOutput * option error)
  : logsClient World :=
  {| GetLogEvents := fun args w => (fetch args, w);
     DescribeLogGroups := fun name w =>
       (({| LogGroups :=
              map (fun n => {| GroupName := n |})
                  (filter (String.prefix name) w) |}, None), w);
     CreateLogGroup := fun name w =>
       if existsb (String.eqb name) w then
         (Some (AwsError "ResourceAlreadyExistsException"
                         "ResourceAlreadyExistsException: exists"), w)
       else (None, (w ++ [name])%list);
     PutRetentionPolicy := fun name days w =>
       if existsb (String.eqb name) w then (None, w)
       else (Some (AwsError "ResourceNotFoundException"
                            "ResourceNotFoundException: no group"), w) |}.

Definition throttleCodes : list string :=
  [ "ProvisionedThroughputExceededException"; "Throttling";
    "ThrottlingException"; "RequestLimitExceeded"; "RequestThrottled";
    "RequestThrottledException"; "TooManyRequestsException";
    "PriorRequestNotComplete"; "TransactionInProgressException";
    "EC2ThrottledException" ].

Fixpoint insert {A : Type} (less : A -> A -> bool) (x : A) (l : list A)
  : list A :=
  match l with
  | [] => [x]
  | y :: rest => if less x y then x :: l else y :: insert less x rest
  end.

Fixpoint insertionSort {A : Type} (less : A -> A -> bool) (l : list A)
  : list A :=
  match l with
  | [] => []
  | x :: rest => insert less x (insertionSort less rest)
  end.

Definition runtime : Runtime :=
  {| ErrCodeResourceNotFoundException := "ResourceNotFoundException";
     IsErrorThrottle := fun e =>
       match e with
       | AwsError code _ => existsb (String.eqb code) throttleCodes
       | _ => false
       end;
     sort_Sort := @insertionSort |}.

(** Sample data. *)
Definition client : logs.ECSCloudWatchLogsClient :=
  {| logs.logRetentionInDays := 30;
     logs.logNamespace := "flotilla";
     logs.logStreamPrefix := "p" |}.

Definition executable : Executable :=
  {| GetExecutableID := "abc";
     GetExecutableResources := {| ContainerName := "c" |} |}.

Definition run (status : string) (engine : string) : Run :=
  {| RunID := "run-1"; Status := status;
     ExecutableType := None; ExecutableID := None;
     DefinitionID := "abc"; Engine := Some engine;
     TaskArn := "arn:aws:ecs:task/abc123" |}.

Definition event (t : Z) (m : string) : OutputLogEvent :=
  {| Timestamp := t; Message := m |}.

Definition answer (events : list OutputLogEvent) (next : option string)
  (err : option error) : GetLogEventsInput -> GetLogEventsOutput * option error :=
  fun _ => ({| Events := events; NextForwardToken := next |}, err).

(** A backend variant that supports both operations and finds nothing. *)
Definition streamingClient : Client World :=
  {| ClientLogs := fun _ _ _ => ret ("", None, None);
     ClientLogsText := fun _ _ _ => ret None |}.

(** A run of no engine. *)
Definition engineless (status : string) : Run :=
  {| RunID := "run-1"; Status := status;
     ExecutableType := None; ExecutableID := None;
     DefinitionID := "abc"; Engine := None;
     TaskArn := "arn:aws:ecs:task/abc123" |}.

(** A CloudWatch double whose three provisioning calls fail on demand. *)
Definition faulty (describeErr createErr retentionErr : option error)
  : logsClient World :=
  {| GetLogEvents := fun _ w =>
       (({| Events := []; NextForwardToken := None |}, None), w);
     DescribeLogGroups := fun name w =>
       match describeErr with
       | Some e => (({| LogGroups := [] |}, Some e), w)
       | None =>
           (({| LogGroups :=
                  map (fun n => {| GroupName := n |})
                      (filter (String.prefix name) w) |}, None), w)
       end;
     CreateLogGroup := fun name w =>
       match createErr with
       | Some e => (Some e, w)
       | None => (None, (w ++ [name])%list)
       end;
     PutRetentionPolicy := fun name days w =>
       match retentionErr with
       | Some e => (Some e, w)
       | None => (None, w)
       end |}.

(** A configuration over fixed tables. *)
Definition config (options : list (string * string))
  (strings : list (string * string)) (ints : list (string * Z)) : Config :=
  {| GetStringMapString := fun key =>
       if key =? "ecs.log.driver.options" then options else [];
     GetString := fun key => mapIndex strings key;
     GetInt := fun key =>
       match find (fun kv => fst kv =? key) ints with
       | Some kv => snd kv
       | None => 0%Z
       end |}.

Definition sessions (err : option error) : Sessions :=
  {| NewSession := fun _ => err |}.

Definition blank : logs.receiver :=
  {| logs.fields := {| logs.logRetentionInDays := 0;
                       logs.logNamespace := "";
                       logs.logStreamPrefix := "" |};
     logs.logsClientSet := false;
     logs.loggerSet := false |}.

(** The client the orchestrator of the examples delegates to. *)
Definition logsClientOf
  (fetch : GetLogEventsInput -> GetLogEventsOutput * option error)
  : Client World :=
  @logs.asClient World (cloudwatch fetch) runtime client.

End fake.

(* ================================================================== *)
(** ** Properties of the orchestrator *)
(* ================================================================== *)

Section MonadLaws.

Context {W : Type}.

Lemma bind_ret {A B : Type} (a : A) (k : A -> M W B) (w : W) :
  bind (ret a) k w = k a w.
Proof.
  unfold bind, ret. destruct (k a w) as [[o w2] t2]. reflexivity.
Qed.

Lemma bind_deref {A B : Type} (a : A) (k : A -> M W B) (w : W) :
  bind (deref (Some a)) k w = k a w.
Proof. apply bind_ret. Qed.

Lemma bind_lift {A B : Type} (a : A) (k : A -> M W B) (w : W) :
  bind (lift (Returns a)) k w = k a w.
Proof. apply (bind_ret a k w). Qed.

Lemma bind_call {A B : Type} (c : Call) (op : W -> A * W) (k : A -> M W B)
  (w w' : W) (a : A) :
  op w = (a, w') ->
  bind (call c op) k w =
    match k a w' with (o, w2, t2) => (o, w2, c :: t2) end.
Proof.
  intros H. unfold bind, call. rewrite H. reflexivity.
Qed.

Lemma bind_assoc {A B C : Type} (m : M W A) (f : A -> M W B)
  (g : B -> M W C) (w : W) :
  bind (bind m f) g w = bind m (fun x => bind (f x) g) w.
Proof.
  unfold bind.
  destruct (m w) as [[[a|] w1] t1]; [|reflexivity].
  destruct (f a w1) as [[[b|] w2] t2]; [|reflexivity].
  destruct (g b w2) as [[o w3] t3].
  rewrite app_assoc. reflexivity.
Qed.

End MonadLaws.

(** Runs the first call of a computation, given what the collaborator
    answers. *)
Ltac go_call H := rewrite (bind_call _ _ _ _ _ _ H); cbv beta iota.

Section OrchestratorFacts.

Context {W : Type} {K : Constants} {sm : Manager W} {lc : Client W}.

Lemma wontHaveLogsYet_spec (run : Run) :
  services.wontHaveLogsYet run = true <->
  Status run <> StatusRunning /\ Status run <> StatusStopped.
Proof.
  unfold services.wontHaveLogsYet.
  rewrite andb_true_iff, !negb_true_iff, !String.eqb_neq.
  reflexivity.
Qed.

(** C1.  A run whose status is neither running nor stopped: [Logs] returns
    the empty text, a nil cursor and no error, [LogsText] returns nil, and
    the only call either makes is the [GetRun] that loaded the run; the log
    backend client is not called. *)
Theorem Logs_gated_by_status
  (runID : string) (lastSeen : option string) (sink : ResponseWriter)
  (w w1 : W) (run : Run) :
  GetRun runID w = ((run, None), w1) ->
  Status run <> StatusRunning ->
  Status run <> StatusStopped ->
  services.Logs runID lastSeen w
    = (Returns ("", None, None), w1, [SmGetRun runID]) /\
  services.LogsText runID sink w = (Returns None, w1, [SmGetRun runID]) /\
  existsb isClientCall [SmGetRun runID] = false.
Proof.
  intros Hrun Hr Hs.
  assert (Hgate : services.wontHaveLogsYet run = true)
    by (apply wontHaveLogsYet_spec; split; assumption).
  unfold services.Logs, services.LogsText.
  split; [|split]; [| |reflexivity];
    go_call Hrun; rewrite Hgate; reflexivity.
Qed.

(** The lookup key the code uses once the defaults are applied. *)
Lemma defaults_applied (run : Run) :
  ExecutableType (services.defaultExecutableID (services.defaultExecutableType run))
    = Some (match ExecutableType run with
            | Some t => t
            | None => ExecutableTypeDefinition
            end) /\
  ExecutableID (services.defaultExecutableID (services.defaultExecutableType run))
    = Some (match ExecutableID run with
            | Some id => id
            | None => DefinitionID run
            end).
Proof.
  unfold services.defaultExecutableID, services.defaultExecutableType.
  destruct run as [rid st [t|] [id|] d en arn]; cbn; split; reflexivity.
Qed.

(** [Logs] past the status gate, in full. *)
Lemma Logs_past_gate
  (runID : string) (lastSeen : option string) (w w1 w2 : W) (run : Run)
  (executable : option Executable) (err : option error) :
  let t := match ExecutableType run with
           | Some t => t | None => ExecutableTypeDefinition end in
  let id := match ExecutableID run with
            | Some id => id | None => DefinitionID run end in
  let run' := services.defaultExecutableID (services.defaultExecutableType run) in
  let delegated :=
    match ClientLogs executable run' lastSeen w2 with
    | (o, w3, tr) =>
        (o, w3, SmGetRun runID :: SmGetExecutableByTypeAndID t id
                :: LcLogs executable run' lastSeen :: tr)
    end in
  GetRun runID w = ((run, None), w1) ->
  services.wontHaveLogsYet run = false ->
  GetExecutableByTypeAndID t id w1 = ((executable, err), w2) ->
  services.Logs runID lastSeen w =
    match err with
    | None => delegated
    | Some e =>
        match Engine run with
        | None =>
            (Panics, w2, [SmGetRun runID; SmGetExecutableByTypeAndID t id])
        | Some engine =>
            if engine =? ECSEngine then
              (Returns ("", None, Some e), w2,
               [SmGetRun runID; SmGetExecutableByTypeAndID t id])
            else delegated
        end
    end.
Proof.
  intros t id run' delegated Hrun Hgate Hexe.
  destruct (defaults_applied run) as [Ht Hid]. fold run' in Ht, Hid.
  assert (Hengine : Engine run' = Engine run).
  { unfold run', services.defaultExecutableID, services.defaultExecutableType.
    destruct (ExecutableType run), (ExecutableID run); reflexivity. }
  unfold services.Logs.
  go_call Hrun. rewrite Hgate. cbv zeta.
  fold run'. rewrite Ht, bind_deref, Hid, bind_deref. fold t id.
  go_call Hexe.
  subst delegated.
  destruct err as [e|].
  - rewrite Hengine. destruct (Engine run) as [engine|]; [|reflexivity].
    rewrite bind_assoc, bind_deref, bind_ret.
    destruct (engine =? ECSEngine); [reflexivity|].
    unfold invoke.
    destruct (ClientLogs executable run' lastSeen w2) as [[o w3] tr].
    reflexivity.
  - rewrite bind_ret. unfold invoke.
    destruct (ClientLogs executable run' lastSeen w2) as [[o w3] tr].
    reflexivity.
Qed.

(** [LogsText] past the status gate, in full: the error of the lookup is
    dropped, whatever the engine. *)
Lemma LogsText_past_gate
  (runID : string) (sink : ResponseWriter) (w w1 w2 : W) (run : Run)
  (executable : option Executable) (err : option error) :
  let t := match ExecutableType run with
           | Some t => t | None => ExecutableTypeDefinition end in
  let id := match ExecutableID run with
            | Some id => id | None => DefinitionID run end in
  let run' := services.defaultExecutableID (services.defaultExecutableType run) in
  GetRun runID w = ((run, None), w1) ->
  services.wontHaveLogsYet run = false ->
  GetExecutableByTypeAndID t id w1 = ((executable, err), w2) ->
  services.LogsText runID sink w =
    match ClientLogsText executable run' sink w2 with
    | (o, w3, tr) =>
        (o, w3, SmGetRun runID :: SmGetExecutableByTypeAndID t id
                :: LcLogsText executable run' sink :: tr)
    end.
Proof.
  intros t id run' Hrun Hgate Hexe.
  destruct (defaults_applied run) as [Ht Hid]. fold run' in Ht, Hid.
  unfold services.LogsText.
  go_call Hrun. rewrite Hgate. cbv zeta.
  fold run'. rewrite Ht, bind_deref, Hid, bind_deref. fold t id.
  go_call Hexe. unfold invoke.
  destruct (ClientLogsText executable run' sink w2) as [[o w3] tr].
  reflexivity.
Qed.

(** X3.  In [Logs], a failed lookup for a run of the ECS engine is returned to
    the caller and the log backend client is not called. *)
Lemma Logs_lookup_failure_ecs
  (runID : string) (lastSeen : option string) (w w1 w2 : W) (run : Run)
  (executable : option Executable) (e : error) :
  let t := match ExecutableType run with
           | Some t => t | None => ExecutableTypeDefinition end in
  let id := match ExecutableID run with
            | Some id => id | None => DefinitionID run end in
  GetRun runID w = ((run, None), w1) ->
  services.wontHaveLogsYet run = false ->
  GetExecutableByTypeAndID t id w1 = ((executable, Some e), w2) ->
  Engine run = Some ECSEngine ->
  services.Logs runID lastSeen w =
    (Returns ("", None, Some e), w2,
     [SmGetRun runID; SmGetExecutableByTypeAndID t id]).
Proof.
  intros t id Hrun Hgate Hexe Hengine.
  rewrite (Logs_past_gate runID lastSeen w w1 w2 run executable (Some e)
             Hrun Hgate Hexe).
  rewrite Hengine, String.eqb_refl. reflexivity.
Qed.

(** X4.  In [Logs], a failed lookup for a run of another engine is tolerated:
    the descriptor the lookup returned goes to the log backend client. *)
Lemma Logs_lookup_failure_other_engine
  (runID : string) (lastSeen : option string) (w w1 w2 : W) (run : Run)
  (executable : option Executable) (e : error) (engine : string) :
  let t := match ExecutableType run with
           | Some t => t | None => ExecutableTypeDefinition end in
  let id := match ExecutableID run with
            | Some id => id | None => DefinitionID run end in
  let run' := services.defaultExecutableID (services.defaultExecutableType run) in
  GetRun runID w = ((run, None), w1) ->
  services.wontHaveLogsYet run = false ->
  GetExecutableByTypeAndID t id w1 = ((executable, Some e), w2) ->
  Engine run = Some engine ->
  engine <> ECSEngine ->
  services.Logs runID lastSeen w =
    match ClientLogs executable run' lastSeen w2 with
    | (o, w3, tr) =>
        (o, w3, SmGetRun runID :: SmGetExecutableByTypeAndID t id
                :: LcLogs executable run' lastSeen :: tr)
    end.
Proof.
  intros t id run' Hrun Hgate Hexe Hengine Hne.
  rewrite (Logs_past_gate runID lastSeen w w1 w2 run executable (Some e)
             Hrun Hgate Hexe).
  rewrite Hengine. apply String.eqb_neq in Hne. rewrite Hne. reflexivity.
Qed.

End OrchestratorFacts.

Section Defaulting.

Context {W : Type} {K : Constants} {lc : Client W}.

Lemma gate_open (run : Run) :
  Status run = StatusRunning \/ Status run = StatusStopped ->
  services.wontHaveLogsYet run = false.
Proof.
  intros H. unfold services.wontHaveLogsYet.
  destruct H as [-> | ->]; rewrite String.eqb_refl; cbn.
  - reflexivity.
  - apply andb_false_r.
Qed.

(** C6.  For a run that passes the status gate, the lookup that follows
    [GetRun], in [Logs] and in [LogsText], is made with the run's executable
    type, or the definition type when the run has none, and with the run's
    executable identifier, or its definition identifier when it has none.
    Hence a run with both fields unset is handled exactly as the same run
    with the definition type and its definition identifier written out:
    over the same lookup, the two operations return the same result, leave
    the same world and make the same calls. *)
Theorem lookup_uses_defaults
  (sm sm' : Manager W) (runID : string) (lastSeen : option string)
  (sink : ResponseWriter) (w w1 : W) (run : Run) :
  @GetRun W sm runID w = ((run, None), w1) ->
  Status run = StatusRunning \/ Status run = StatusStopped ->
  let t := match ExecutableType run with
           | Some t => t | None => ExecutableTypeDefinition end in
  let id := match ExecutableID run with
            | Some id => id | None => DefinitionID run end in
  (exists o w' rest,
     @services.Logs W K sm lc runID lastSeen w
       = (o, w', SmGetRun runID :: SmGetExecutableByTypeAndID t id :: rest)) /\
  (exists o w' rest,
     @services.LogsText W K sm lc runID sink w
       = (o, w', SmGetRun runID :: SmGetExecutableByTypeAndID t id :: rest)) /\
  (ExecutableType run = None ->
   ExecutableID run = None ->
   @GetExecutableByTypeAndID W sm' = @GetExecutableByTypeAndID W sm ->
   @GetRun W sm' runID w = ((@explicitExecutable K run, None), w1) ->
   @services.Logs W K sm' lc runID lastSeen w
     = @services.Logs W K sm lc runID lastSeen w /\
   @services.LogsText W K sm' lc runID sink w
     = @services.LogsText W K sm lc runID sink w).
Proof.
  intros Hrun Hstatus t id.
  pose proof (gate_open run Hstatus) as Hgate.
  destruct (@GetExecutableByTypeAndID W sm t id w1) as [[exe err] w2] eqn:Hexe.
  pose proof (@Logs_past_gate W K sm lc runID lastSeen w w1 w2 run exe err
                Hrun Hgate Hexe) as HL.
  pose proof (@LogsText_past_gate W K sm lc runID sink w w1 w2 run exe err
                Hrun Hgate Hexe) as HT.
  cbv zeta in HL, HT. fold t id in HL, HT.
  split; [|split].
  - rewrite HL.
    destruct (ClientLogs exe _ lastSeen w2) as [[o w3] tr].
    destruct err as [e|]; [destruct (Engine run) as [engine|]|];
      [destruct (engine =? ECSEngine)| |]; eauto.
  - rewrite HT.
    destruct (ClientLogsText exe _ sink w2) as [[o w3] tr]; eauto.
  - intros Hty Hid Hsame Hrun'.
    assert (Hgate' : services.wontHaveLogsYet (@explicitExecutable K run) = false)
      by exact Hgate.
    assert (Ht : t = ExecutableTypeDefinition) by (subst t; rewrite Hty; reflexivity).
    assert (Hi : id = DefinitionID run) by (subst id; rewrite Hid; reflexivity).
    assert (Hexe' : @GetExecutableByTypeAndID W sm'
                      ExecutableTypeDefinition (DefinitionID run) w1
                    = ((exe, err), w2))
      by (rewrite Hsame, <- Ht, <- Hi; exact Hexe).
    pose proof (@Logs_past_gate W K sm' lc runID lastSeen w w1 w2
                  (@explicitExecutable K run) exe err Hrun' Hgate' Hexe') as HL'.
    pose proof (@LogsText_past_gate W K sm' lc runID sink w w1 w2
                  (@explicitExecutable K run) exe err Hrun' Hgate' Hexe') as HT'.
    cbv zeta in HL', HT'. cbn [explicitExecutable ExecutableType ExecutableID
                               DefinitionID Engine] in HL', HT'.
    rewrite HL, HL', HT, HT', Ht, Hi.
    assert (Hsame_run :
      services.defaultExecutableID (services.defaultExecutableType run)
      = services.defaultExecutableID
          (services.defaultExecutableType (@explicitExecutable K run))).
    { unfold services.defaultExecutableID, services.defaultExecutableType.
      rewrite Hty. cbn. rewrite Hid. reflexivity. }
    rewrite <- Hsame_run. split; reflexivity.
Qed.

End Defaulting.

Lemma lookup_uses_defaults_witness :
  let K := fake.constants in
  let r := fake.run "RUNNING" "ecs" in
  let table := [("task_definition", "abc", fake.executable)] in
  let sm := fake.manager [r] table in
  let sm' := fake.manager [@explicitExecutable K r] table in
  let lc := fake.logsClientOf (fake.answer [] None None) in
  (exists o w' rest,
     @services.Logs _ K sm lc "run-1" None []
       = (o, w', SmGetRun "run-1"
                 :: SmGetExecutableByTypeAndID "task_definition" "abc" :: rest)) /\
  (exists o w' rest,
     @services.LogsText _ K sm lc "run-1" (Sink 0) []
       = (o, w', SmGetRun "run-1"
                 :: SmGetExecutableByTypeAndID "task_definition" "abc" :: rest)) /\
  (@services.Logs _ K sm' lc "run-1" None []
     = @services.Logs _ K sm lc "run-1" None [] /\
   @services.LogsText _ K sm' lc "run-1" (Sink 0) []
     = @services.LogsText _ K sm lc "run-1" (Sink 0) []).
Proof.
  intros K r table sm sm' lc.
  destruct (@lookup_uses_defaults _ K lc sm sm' "run-1" None (Sink 0) [] [] r
              eq_refl (or_introl eq_refl)) as (HL & HT & Hsame).
  split; [exact HL|]. split; [exact HT|].
  apply Hsame; reflexivity.
Defined.

(** C3, at the input where the code departs from it: a running run of the
    ECS engine whose executable is in no table.  [Logs] returns the error of
    the lookup and does not call the log backend client; [LogsText] calls
    the client with the nil descriptor and returns what the client returns,
    here success. *)
Theorem LogsText_drops_lookup_error :
  let K := fake.constants in
  let r := fake.run "RUNNING" "ecs" in
  let sm := fake.manager [r] [] in
  let lc := fake.streamingClient in
  @GetExecutableByTypeAndID _ sm "task_definition" "abc" []
    = ((None, Some (MissingResource "no such executable")), []) /\
  @services.Logs _ K sm lc "run-1" None []
    = (Returns ("", None, Some (MissingResource "no such executable")), [],
       [SmGetRun "run-1"; SmGetExecutableByTypeAndID "task_definition" "abc"]) /\
  @services.LogsText _ K sm lc "run-1" (Sink 0) []
    = (Returns None, [],
       [SmGetRun "run-1"; SmGetExecutableByTypeAndID "task_definition" "abc";
        LcLogsText None (@explicitExecutable K r) (Sink 0)]).
Proof.
  repeat split.
Qed.

Lemma Logs_gated_by_status_witness :
  let sm := fake.manager [fake.run "QUEUED" "ecs"] [] in
  let lc := fake.logsClientOf (fake.answer [] None None) in
  @services.Logs _ fake.constants sm lc "run-1" None []
    = (Returns ("", None, None), [], [SmGetRun "run-1"]) /\
  @services.LogsText _ fake.constants sm lc "run-1" (Sink 0) []
    = (Returns None, [], [SmGetRun "run-1"]) /\
  existsb isClientCall [SmGetRun "run-1"] = false.
Proof.
  intros sm lc.
  apply (@Logs_gated_by_status _ fake.constants sm lc "run-1" None (Sink 0)
           [] [] (fake.run "QUEUED" "ecs")).
  - reflexivity.
  - simpl; discriminate.
  - simpl; discriminate.
Defined.

(* ================================================================== *)
(** ** Properties of the string helpers *)
(* ================================================================== *)

Lemma append_assoc (a b c : string) : (a ++ b) ++ c = a ++ (b ++ c).
Proof.
  induction a as [|x a IH]; cbn; [reflexivity|]. rewrite IH. reflexivity.
Qed.

Section Strings.

Variable sep : ascii.

Lemma strings_Split_nonempty (s : string) : logs.strings_Split s sep <> [].
Proof.
  destruct s as [|c rest]; cbn; [discriminate|].
  destruct (Ascii.eqb c sep); [discriminate|].
  destruct (logs.strings_Split rest sep); discriminate.
Qed.

(** Joining what [strings.Split] returns gives the string back. *)
Lemma strings_Join_Split (s : string) :
  logs.strings_Join (logs.strings_Split s sep) (String sep "") = s.
Proof.
  unfold logs.strings_Join.
  induction s as [|c rest IH]; cbn [logs.strings_Split]; [reflexivity|].
  pose proof (strings_Split_nonempty rest) as Hne.
  destruct (Ascii.eqb c sep) eqn:Hc.
  - apply Ascii.eqb_eq in Hc. subst c.
    destruct (logs.strings_Split rest sep) as [|first others];
      [contradiction|].
    change (String sep (String.concat (String sep "") (first :: others))
            = String sep rest).
    rewrite IH. reflexivity.
  - destruct (logs.strings_Split rest sep) as [|first others];
      [contradiction|].
    destruct others as [|second others].
    + change (String c (String.concat (String sep "") [first])
              = String c rest).
      rewrite IH. reflexivity.
    + change (String c (String.concat (String sep "")
                          (first :: second :: others))
              = String c rest).
      rewrite IH. reflexivity.
Qed.

(** No segment holds the separator. *)
Lemma strings_Split_segments (s : string) :
  Forall (fun segment => ~ In sep (list_ascii_of_string segment))
         (logs.strings_Split s sep).
Proof.
  induction s as [|c rest IH]; cbn [logs.strings_Split].
  - constructor; [intros []|constructor].
  - destruct (Ascii.eqb c sep) eqn:Hc.
    + constructor; [intros []|exact IH].
    + apply Ascii.eqb_neq in Hc.
      destruct (logs.strings_Split rest sep) as [|first others].
      * constructor; [|constructor].
        cbn. intros [H|[]]. congruence.
      * inversion IH as [|? ? Hfirst Hothers]; subst.
        constructor; [|exact Hothers].
        cbn. intros [H|H]; [congruence|contradiction].
Qed.

(** The text joined from a non-empty list ends with its last element,
    alone or after a separator. *)
Lemma concat_last (l : list string) :
  l <> [] ->
  String.concat (String sep "") l = last l "" \/
  exists before, String.concat (String sep "") l = before ++ String sep (last l "").
Proof.
  induction l as [|x rest IH]; [congruence|]. intros _.
  destruct rest as [|y rest]; [left; reflexivity|].
  right.
  assert (Hne : y :: rest <> []) by discriminate.
  destruct (IH Hne) as [H|[before H]].
  - exists x. cbn [String.concat last] in *. rewrite H. reflexivity.
  - exists (x ++ String sep before).
    change (String.concat (String sep "") (x :: y :: rest))
      with (x ++ String sep "" ++ String.concat (String sep "") (y :: rest)).
    rewrite H.
    change (last (x :: y :: rest) "") with (last (y :: rest) "").
    rewrite append_assoc. reflexivity.
Qed.

(** The last element of [strings.Split(s, sep)] is the final segment
    of [s]. *)
Lemma last_Split_finalSegment (s : string) :
  finalSegment sep s (last (logs.strings_Split s sep) "").
Proof.
  split.
  - pose proof (strings_Split_segments s) as Hall.
    rewrite Forall_forall in Hall. apply Hall.
    destruct (exists_last (strings_Split_nonempty s)) as (init & x & E).
    rewrite E, last_last. apply in_or_app. right. left. reflexivity.
  - pose proof (concat_last _ (strings_Split_nonempty s)) as H.
    pose proof (strings_Join_Split s) as HJ.
    unfold logs.strings_Join in HJ. rewrite HJ in H. exact H.
Qed.

(** Indexing a slice at [len - 1]. *)
Lemma nth_error_last {A : Type} (l : list A) (d : A) :
  l <> [] -> nth_error l (length l - 1) = Some (last l d).
Proof.
  intros Hne.
  destruct (exists_last Hne) as (init & x & ->).
  rewrite last_last, length_app. cbn [length].
  replace (length init + 1 - 1)%nat with (length init) by lia.
  rewrite nth_error_app2 by lia.
  rewrite Nat.sub_diag. reflexivity.
Qed.

End Strings.

(* ================================================================== *)
(** ** Properties of the CloudWatch client *)
(* ================================================================== *)

Section ClientFacts.

Context {W : Type} {aws : logsClient W} {rt : Runtime}.
Variable cwl : logs.ECSCloudWatchLogsClient.

Lemma toStreamName_returns (e : Executable) (run : Run) :
  logs.toStreamName cwl (Some e) run
  = Returns (logs.logStreamPrefix cwl ++ "/"
             ++ ContainerName (GetExecutableResources e) ++ "/"
             ++ last (logs.strings_Split (TaskArn run) "/"%char) "").
Proof.
  unfold logs.toStreamName.
  rewrite (nth_error_last _ "" (strings_Split_nonempty "/"%char (TaskArn run))).
  reflexivity.
Qed.

(** C5.  The stream handle is the configured stream prefix, the container
    name of the executable and the final "/"-separated segment of the run's
    task handle, joined with "/"; prefix "p", container "c" and task handle
    "arn:aws:ecs:task/abc123" give "p/c/abc123". *)
Theorem stream_handle (e : Executable) (run : Run) :
  (exists segment,
     finalSegment "/"%char (TaskArn run) segment /\
     logs.toStreamName cwl (Some e) run
     = Returns (logs.logStreamPrefix cwl ++ "/"
                ++ ContainerName (GetExecutableResources e) ++ "/"
                ++ segment)) /\
  logs.toStreamName fake.client (Some fake.executable) (fake.run "RUNNING" "ecs")
  = Returns "p/c/abc123".
Proof.
  split; [|reflexivity].
  exists (last (logs.strings_Split (TaskArn run) "/"%char) "").
  split.
  - apply last_Split_finalSegment.
  - apply toStreamName_returns.
Qed.

(** [Logs] once the backend has answered, in full. *)
Lemma Logs_after_fetch
  (e : Executable) (run : Run) (lastSeen : option string) (handle : string)
  (w w' : W) (result : GetLogEventsOutput) (err : option error) :
  let args := logs.getLogEventsInput cwl handle lastSeen in
  logs.toStreamName cwl (Some e) run = Returns handle ->
  GetLogEvents args w = ((result, err), w') ->
  logs.Logs cwl (Some e) run lastSeen w =
    match err with
    | None =>
        (Returns (if (length (Events result) =? 0)%nat then ""
                  else logs.logsToMessage (Events result),
                  NextForwardToken result, None),
         w', [AwsGetLogEvents args])
    | Some (AwsError code text) =>
        if code =? ErrCodeResourceNotFoundException then
          (Returns ("", None, Some (MissingResource text)), w',
           [AwsGetLogEvents args])
        else if IsErrorThrottle (AwsError code text) then
          (Returns ("", lastSeen, None), w',
           [AwsGetLogEvents args;
            LoggerPrintf (GetExecutableID e) (RunID run) (AwsError code text)])
        else
          (Returns ("", None,
                    Some (Wrap (AwsError code text) "problem getting logs")),
           w', [AwsGetLogEvents args])
    | Some other =>
        (Returns ("", None, Some (Wrap other "problem getting logs")), w',
         [AwsGetLogEvents args])
    end.
Proof.
  intros args Hhandle Hfetch.
  unfold logs.Logs. rewrite Hhandle, bind_lift. cbv zeta. fold args.
  go_call Hfetch.
  destruct err as [[code text| | | |]|]; try reflexivity.
  - cbn [Error].
    destruct (code =? ErrCodeResourceNotFoundException); [reflexivity|].
    destruct (IsErrorThrottle (AwsError code text)); reflexivity.
  - destruct (length (Events result) =? 0)%nat; reflexivity.
Qed.

(** C7.  A fetch that succeeds with no event: [Logs] returns the empty
    text, the next token of the backend's response and no error. *)
Theorem Logs_no_events
  (e : Executable) (run : Run) (lastSeen next : option string)
  (handle : string) (w w' : W) :
  logs.toStreamName cwl (Some e) run = Returns handle ->
  GetLogEvents (logs.getLogEventsInput cwl handle lastSeen) w
    = (({| Events := []; NextForwardToken := next |}, None), w') ->
  logs.Logs cwl (Some e) run lastSeen w
    = (Returns ("", next, None), w',
       [AwsGetLogEvents (logs.getLogEventsInput cwl handle lastSeen)]).
Proof.
  intros Hhandle Hfetch.
  rewrite (Logs_after_fetch e run lastSeen handle w w' _ _ Hhandle Hfetch).
  reflexivity.
Qed.

(** C8.  A fetch that fails with the backend's "resource not found" code:
    [Logs] returns a [MissingResource] error, which no wrapped (generic)
    failure is; and [LogsText] of this client returns, on every input and
    without any call, the error that says the method is not supported. *)
Theorem Logs_missing_resource
  (e : Executable) (run : Run) (lastSeen : option string)
  (handle text : string) (result : GetLogEventsOutput) (w w' : W) :
  logs.toStreamName cwl (Some e) run = Returns handle ->
  GetLogEvents (logs.getLogEventsInput cwl handle lastSeen) w
    = ((result, Some (AwsError ErrCodeResourceNotFoundException text)), w') ->
  logs.Logs cwl (Some e) run lastSeen w
    = (Returns ("", None, Some (MissingResource text)), w',
       [AwsGetLogEvents (logs.getLogEventsInput cwl handle lastSeen)]) /\
  (forall cause message, MissingResource text <> Wrap cause message) /\
  (forall client executable run' sink w0,
     logs.LogsText (W := W) client executable run' sink w0
     = (Returns
          (Some (Errorf "ECSCloudWatchLogsClient does not support LogsText method.")),
        w0, [])).
Proof.
  intros Hhandle Hfetch.
  split; [|split].
  - rewrite (Logs_after_fetch e run lastSeen handle w w' _ _ Hhandle Hfetch).
    rewrite String.eqb_refl. reflexivity.
  - discriminate.
  - reflexivity.
Qed.

(** C2.  A fetch that fails with a throttling error: [Logs] returns the
    empty text, the cursor it was given and no error. *)
Theorem Logs_throttled
  (contract : ThrottleContract rt)
  (e : Executable) (run : Run) (lastSeen : option string)
  (handle : string) (result : GetLogEventsOutput) (err : error) (w w' : W) :
  logs.toStreamName cwl (Some e) run = Returns handle ->
  GetLogEvents (logs.getLogEventsInput cwl handle lastSeen) w
    = ((result, Some err), w') ->
  IsErrorThrottle err = true ->
  logs.Logs cwl (Some e) run lastSeen w
    = (Returns ("", lastSeen, None), w',
       [AwsGetLogEvents (logs.getLogEventsInput cwl handle lastSeen);
        LoggerPrintf (GetExecutableID e) (RunID run) err]).
Proof.
  intros Hhandle Hfetch Hthrottle.
  rewrite (Logs_after_fetch e run lastSeen handle w w' _ _ Hhandle Hfetch).
  destruct (contract err Hthrottle) as (code & text & -> & Hcode).
  apply String.eqb_neq in Hcode. rewrite Hcode, Hthrottle. reflexivity.
Qed.

(** C10.  An empty cursor and no cursor: the request is the same, from the
    head of the stream and without a continuation token, and [Logs] issues
    it to the backend in both cases. *)
Theorem empty_cursor_is_no_cursor
  (e : Executable) (run : Run) (w : W) :
  exists handle request,
    request = {| LogGroupName := logs.logNamespace cwl;
                 LogStreamName := handle;
                 StartFromHead := true;
                 NextToken := None |} /\
    logs.toStreamName cwl (Some e) run = Returns handle /\
    logs.getLogEventsInput cwl handle (Some "") = request /\
    logs.getLogEventsInput cwl handle None = request /\
    exists o o' w' rest,
      logs.Logs cwl (Some e) run (Some "") w
        = (o, w', AwsGetLogEvents request :: rest) /\
      logs.Logs cwl (Some e) run None w
        = (o', w', AwsGetLogEvents request :: rest).
Proof.
  eexists. eexists. split; [reflexivity|].
  split; [apply toStreamName_returns|].
  split; [reflexivity|]. split; [reflexivity|].
  set (handle := (logs.logStreamPrefix cwl ++ _)%string).
  destruct (GetLogEvents (logs.getLogEventsInput cwl handle None) w)
    as [[result err] w'] eqn:Hfetch.
  assert (Hfetch' :
    GetLogEvents (logs.getLogEventsInput cwl handle (Some "")) w
    = ((result, err), w')) by exact Hfetch.
  rewrite (Logs_after_fetch e run None handle w w' _ _
             (toStreamName_returns e run) Hfetch).
  rewrite (Logs_after_fetch e run (Some "") handle w w' _ _
             (toStreamName_returns e run) Hfetch').
  change (logs.getLogEventsInput cwl handle (Some ""))
    with (logs.getLogEventsInput cwl handle None).
  destruct err as [[code text| | | |]|]; try (do 4 eexists; split; reflexivity).
  destruct (code =? ErrCodeResourceNotFoundException);
    [do 4 eexists; split; reflexivity|].
  destruct (IsErrorThrottle (AwsError code text));
    do 4 eexists; split; reflexivity.
Qed.

End ClientFacts.

(* ================================================================== *)
(** ** Ordering of a page of events *)
(* ================================================================== *)

Lemma byTimestamp_Less_asym (x y : OutputLogEvent) :
  logs.byTimestamp_Less x y = true -> logs.byTimestamp_Less y x = false.
Proof.
  unfold logs.byTimestamp_Less. rewrite Z.ltb_lt, Z.ltb_ge. lia.
Qed.

Lemma byTimestamp_Less_negtrans (x y z : OutputLogEvent) :
  logs.byTimestamp_Less x y = false ->
  logs.byTimestamp_Less y z = false ->
  logs.byTimestamp_Less x z = false.
Proof.
  unfold logs.byTimestamp_Less. rewrite !Z.ltb_ge. lia.
Qed.

Lemma StronglySorted_weaken {A : Type} (R R' : A -> A -> Prop) (l : list A) :
  (forall a b, R a b -> R' a b) ->
  StronglySorted R l -> StronglySorted R' l.
Proof.
  intros Himp. induction 1 as [|a l Hs IH Hall]; constructor.
  - exact IH.
  - revert Hall. apply Forall_impl. apply Himp.
Qed.

(** Two ascending arrangements of the same events, no two of them of the
    same timestamp, are the same list. *)
Lemma ascending_unique (l1 : list OutputLogEvent) :
  forall l2,
    ascending l1 -> ascending l2 -> Permutation l1 l2 ->
    NoDup (map Timestamp l1) -> l1 = l2.
Proof.
  induction l1 as [|a l1 IH]; intros l2 H1 H2 Hperm Hnodup.
  - apply Permutation_nil in Hperm. congruence.
  - destruct l2 as [|b l2].
    + apply Permutation_sym, Permutation_nil in Hperm. discriminate.
    + apply StronglySorted_inv in H1. destruct H1 as [H1 Ha].
      apply StronglySorted_inv in H2. destruct H2 as [H2 Hb].
      rewrite Forall_forall in Ha, Hb.
      cbn [map] in Hnodup. apply NoDup_cons_iff in Hnodup.
      destruct Hnodup as [Hfresh Hnodup].
      assert (Hab : a = b).
      { assert (Hin_a : In a (b :: l2))
          by (eapply Permutation_in; [exact Hperm|left; reflexivity]).
        assert (Hin_b : In b (a :: l1))
          by (eapply Permutation_in;
              [apply Permutation_sym; exact Hperm|left; reflexivity]).
        destruct Hin_a as [E|Hin_a]; [congruence|].
        destruct Hin_b as [E|Hin_b]; [congruence|].
        specialize (Ha b Hin_b). specialize (Hb a Hin_a).
        exfalso. apply Hfresh.
        replace (Timestamp a) with (Timestamp b) by lia.
        apply in_map. exact Hin_b. }
      subst b. f_equal.
      apply IH; try assumption.
      eapply Permutation_cons_inv. exact Hperm.
Qed.

Section SortingFacts.

Context {W : Type} {aws : logsClient W} {rt : Runtime}.
Hypothesis contract : SortContract rt.
Variable cwl : logs.ECSCloudWatchLogsClient.

(** What [sort.Sort(byTimestamp(events))] leaves in the slice. *)
Lemma sorted_events (events : list OutputLogEvent) :
  Permutation events (sort_Sort logs.byTimestamp_Less events) /\
  ascending (sort_Sort logs.byTimestamp_Less events).
Proof.
  destruct (contract _ logs.byTimestamp_Less events
              byTimestamp_Less_asym byTimestamp_Less_negtrans) as [Hp Hs].
  split; [exact Hp|].
  unfold ascending. revert Hs. apply StronglySorted_weaken.
  intros a b. unfold logs.byTimestamp_Less. rewrite Z.ltb_ge. trivial.
Qed.

Lemma logsToMessage_order_free (events delivered : list OutputLogEvent) :
  NoDup (map Timestamp events) ->
  Permutation delivered events ->
  logs.logsToMessage delivered = logs.logsToMessage events.
Proof.
  intros Hnodup Hperm. unfold logs.logsToMessage.
  destruct (sorted_events events) as [Hpe Hse].
  destruct (sorted_events delivered) as [Hpd Hsd].
  rewrite (ascending_unique _ _ Hse Hsd); [reflexivity| |].
  - eapply Permutation_trans; [apply Permutation_sym; exact Hpe|].
    eapply Permutation_trans; [apply Permutation_sym; exact Hperm|exact Hpd].
  - eapply Permutation_NoDup; [|exact Hnodup].
    apply Permutation_map. exact Hpe.
Qed.

(** C4.  A fetch that succeeds with events: the text [Logs] returns is the
    messages of the events, arranged in ascending order of timestamp and
    joined with the newline byte (code 10) between them.  When no two
    events have the same timestamp the text does not depend on the order of
    delivery; events of timestamps 3, 1, 2 and messages "c", "a", "b" give
    the five bytes "a", newline, "b", newline, "c". *)
Theorem Logs_sorts_by_timestamp
  (e : Executable) (run : Run) (lastSeen next : option string)
  (handle : string) (events : list OutputLogEvent) (w w' : W) :
  logs.toStreamName cwl (Some e) run = Returns handle ->
  GetLogEvents (logs.getLogEventsInput cwl handle lastSeen) w
    = (({| Events := events; NextForwardToken := next |}, None), w') ->
  events <> [] ->
  (exists sorted,
     Permutation events sorted /\
     ascending sorted /\
     logs.Logs cwl (Some e) run lastSeen w
     = (Returns (String.concat (String "010"%char EmptyString)
                               (map Message sorted),
                 next, None),
        w', [AwsGetLogEvents (logs.getLogEventsInput cwl handle lastSeen)])) /\
  (NoDup (map Timestamp events) ->
   forall delivered, Permutation delivered events ->
     logs.logsToMessage delivered = logs.logsToMessage events) /\
  (events = [ {| Timestamp := 3; Message := "c" |};
              {| Timestamp := 1; Message := "a" |};
              {| Timestamp := 2; Message := "b" |} ] ->
   logs.Logs cwl (Some e) run lastSeen w
   = (Returns (String "a"%char (String "010"%char
                 (String "b"%char (String "010"%char
                    (String "c"%char EmptyString)))),
               next, None),
      w', [AwsGetLogEvents (logs.getLogEventsInput cwl handle lastSeen)])).
Proof.
  intros Hhandle Hfetch Hne.
  split; [|split].
  - exists (sort_Sort logs.byTimestamp_Less events).
    destruct (sorted_events events) as [Hp Hs].
    split; [exact Hp|]. split; [exact Hs|].
    rewrite (Logs_after_fetch cwl e run lastSeen handle w w' _ _ Hhandle Hfetch).
    cbn [Events NextForwardToken].
    destruct events as [|x rest]; [congruence|]. reflexivity.
  - intros Hnodup delivered Hperm.
    apply logsToMessage_order_free; assumption.
  - intros Hevents.
    rewrite (Logs_after_fetch cwl e run lastSeen handle w w' _ _ Hhandle Hfetch).
    cbn [Events NextForwardToken]. rewrite Hevents.
    cbn [length Nat.eqb]. unfold logs.logsToMessage.
    set (delivered := [ {| Timestamp := 3; Message := "c" |};
                        {| Timestamp := 1; Message := "a" |};
                        {| Timestamp := 2; Message := "b" |} ]).
    destruct (sorted_events delivered) as [Hp Hs].
    rewrite <- (ascending_unique
                  [ {| Timestamp := 1; Message := "a" |};
                    {| Timestamp := 2; Message := "b" |};
                    {| Timestamp := 3; Message := "c" |} ]
                  (sort_Sort logs.byTimestamp_Less delivered)).
    + reflexivity.
    + unfold ascending.
      repeat (constructor; [|repeat constructor; cbn; lia]). constructor.
    + exact Hs.
    + eapply Permutation_trans; [|exact Hp].
      subst delivered. apply Permutation_sym, Permutation_cons_append.
    + cbn. repeat constructor; cbn; intuition discriminate.
Qed.

End SortingFacts.

(* ================================================================== *)
(** ** Namespace provisioning *)
(* ================================================================== *)

Lemma anyGroupNamed_In (name : string) (groups : list LogGroup) :
  In {| GroupName := name |} groups -> logs.anyGroupNamed name groups = true.
Proof.
  induction groups as [|g rest IH]; cbn; [intros []|].
  intros [->|Hin].
  - cbn. rewrite String.eqb_refl. reflexivity.
  - destruct (GroupName g =? name); [reflexivity|]. apply IH, Hin.
Qed.

Section ProvisioningFacts.

Context {W : Type} {aws : logsClient W} {rt : Runtime}.
Variable cwl : logs.ECSCloudWatchLogsClient.

Let namespace : string := logs.logNamespace cwl.

(** The existence check finds a group of exactly the configured name. *)
Lemma namespaceExists_found (w w' : W) (out : DescribeLogGroupsOutput) :
  DescribeLogGroups namespace w = ((out, None), w') ->
  In {| GroupName := namespace |} (LogGroups out) ->
  logs.namespaceExists cwl w
  = (Returns (true, None), w', [AwsDescribeLogGroups namespace]).
Proof.
  intros Hdescribe Hin.
  unfold logs.namespaceExists. fold namespace.
  go_call Hdescribe.
  destruct (LogGroups out) as [|g rest] eqn:Hgroups; [destruct Hin|].
  cbn [length Nat.eqb].
  rewrite (anyGroupNamed_In namespace (g :: rest) Hin). reflexivity.
Qed.

Lemma provisioned_is_noop (w w' : W) (out : DescribeLogGroupsOutput) :
  DescribeLogGroups namespace w = ((out, None), w') ->
  In {| GroupName := namespace |} (LogGroups out) ->
  logs.createNamespaceIfNotExists cwl w
  = (Returns None, w', [AwsDescribeLogGroups namespace]).
Proof.
  intros Hdescribe Hin.
  unfold logs.createNamespaceIfNotExists, bind.
  rewrite (namespaceExists_found w w' out Hdescribe Hin). reflexivity.
Qed.

(** One provisioning asks for at most one creation. *)
Lemma creates_at_most_once (w : W) :
  (length (filter isCreateLogGroup
             (snd (logs.createNamespaceIfNotExists cwl w))) <= 1)%nat.
Proof.
  unfold logs.createNamespaceIfNotExists, logs.namespaceExists,
    logs.createNamespace, bind, call, ret.
  destruct (DescribeLogGroups (logs.logNamespace cwl) w) as [[out [e|]] w1];
    cbn; [lia|].
  destruct (length (LogGroups out) =? 0)%nat; cbn.
  - destruct (CreateLogGroup (logs.logNamespace cwl) w1) as [[e|] w2];
      cbn; [lia|].
    destruct (PutRetentionPolicy (logs.logNamespace cwl)
                (logs.logRetentionInDays cwl) w2) as [[e|] w3]; cbn; lia.
  - destruct (logs.anyGroupNamed (logs.logNamespace cwl) (LogGroups out));
      cbn; [lia|].
    destruct (CreateLogGroup (logs.logNamespace cwl) w1) as [[e|] w2];
      cbn; [lia|].
    destruct (PutRetentionPolicy (logs.logNamespace cwl)
                (logs.logRetentionInDays cwl) w2) as [[e|] w3]; cbn; lia.
Qed.

(** A provisioning that succeeds leaves a world in which the next
    provisioning finds the namespace. *)
Lemma provisioned_stays
  (groups : W -> list string) (contract : ProvisioningContract aws groups)
  (w w1 : W) (t1 : list Call) :
  logs.createNamespaceIfNotExists cwl w = (Returns None, w1, t1) ->
  logs.createNamespaceIfNotExists cwl w1
  = (Returns None, w1, [AwsDescribeLogGroups namespace]).
Proof.
  intros Hfirst.
  destruct (describe_lists aws groups contract namespace w)
    as (out & Hdescribe & Hout).
  destruct (describe_lists aws groups contract namespace w1)
    as (out1 & Hdescribe1 & Hout1).
  assert (Hcases :
    (w1 = w /\ (length (LogGroups out) =? 0)%nat = false /\
     logs.anyGroupNamed namespace (LogGroups out) = true) \/
    In namespace (groups w1)).
  { assert (Hcreate :
      forall w2 w3 r,
        CreateLogGroup namespace w = (None, w2) ->
        PutRetentionPolicy namespace (logs.logRetentionInDays cwl) w2
          = (r, w3) ->
        In namespace (groups w3)).
    { intros w2 w3 r Hc Hp.
      eapply (retention_keeps aws groups contract); [exact Hp|].
      eapply (create_adds aws groups contract). exact Hc. }
    revert Hfirst.
    unfold logs.createNamespaceIfNotExists, logs.namespaceExists,
      logs.createNamespace, bind, call, ret. fold namespace.
    rewrite Hdescribe.
    destruct (length (LogGroups out) =? 0)%nat eqn:Hlen; cbn.
    - destruct (CreateLogGroup namespace w) as [[e|] w2] eqn:Hc; cbn;
        [intros H; discriminate|].
      destruct (PutRetentionPolicy namespace (logs.logRetentionInDays cwl) w2)
        as [[e|] w3] eqn:Hp; cbn; intros H; inversion H; subst.
      right. eapply Hcreate; [reflexivity|exact Hp].
    - destruct (logs.anyGroupNamed namespace (LogGroups out)) eqn:Hany; cbn.
      + intros H; inversion H; subst. left. auto.
      + destruct (CreateLogGroup namespace w) as [[e|] w2] eqn:Hc; cbn;
          [intros H; discriminate|].
        destruct (PutRetentionPolicy namespace (logs.logRetentionInDays cwl) w2)
          as [[e|] w3] eqn:Hp; cbn; intros H; inversion H; subst.
        right. eapply Hcreate; [reflexivity|exact Hp]. }
  destruct Hcases as [(-> & Hlen & Hany) | Hin].
  - unfold logs.createNamespaceIfNotExists, logs.namespaceExists,
      bind, call, ret. fold namespace.
    rewrite Hdescribe, Hlen, Hany. reflexivity.
  - apply (provisioned_is_noop w1 w1 out1 Hdescribe1 (Hout1 Hin)).
Qed.

(** C9.  Provisioning is idempotent.  When the backend lists a log group
    of exactly the configured name, [createNamespaceIfNotExists] succeeds
    and its only call is the query: it creates nothing and sets no
    retention policy.  Hence, over a backend that answers, a provisioning
    that succeeded followed by a second one: the second succeeds, only
    queries and leaves the world as it found it, and the two together ask
    for at most one creation. *)
Theorem provisioning_idempotent
  (groups : W -> list string) (contract : ProvisioningContract aws groups) :
  (forall w w' out,
     DescribeLogGroups (logs.logNamespace cwl) w = ((out, None), w') ->
     In {| GroupName := logs.logNamespace cwl |} (LogGroups out) ->
     logs.createNamespaceIfNotExists cwl w
     = (Returns None, w', [AwsDescribeLogGroups (logs.logNamespace cwl)]) /\
     existsb isMutation [AwsDescribeLogGroups (logs.logNamespace cwl)] = false) /\
  (forall w w1 t1,
     logs.createNamespaceIfNotExists cwl w = (Returns None, w1, t1) ->
     let t2 := [AwsDescribeLogGroups (logs.logNamespace cwl)] in
     (first <- logs.createNamespaceIfNotExists cwl ;;
      second <- logs.createNamespaceIfNotExists cwl ;;
      ret (first, second)) w
     = (Returns (None, None), w1, (t1 ++ t2)%list) /\
     existsb isMutation t2 = false /\
     (length (filter isCreateLogGroup (t1 ++ t2)) <= 1)%nat).
Proof.
  split.
  - intros w w' out Hdescribe Hin. split; [|reflexivity].
    exact (provisioned_is_noop w w' out Hdescribe Hin).
  - intros w w1 t1 Hfirst t2.
    pose proof (provisioned_stays groups contract w w1 t1 Hfirst) as Hsecond.
    fold t2 in Hsecond. unfold namespace in Hsecond.
    split; [|split].
    + unfold bind at 1. rewrite Hfirst.
      unfold bind at 1. rewrite Hsecond.
      unfold ret. rewrite app_nil_r. reflexivity.
    + reflexivity.
    + rewrite filter_app, length_app. cbn.
      pose proof (creates_at_most_once w) as Hone.
      rewrite Hfirst in Hone. cbn [snd] in Hone. lia.
Qed.

End ProvisioningFacts.

(* ================================================================== *)
(** ** The test doubles meet the contracts *)
(* ================================================================== *)

Lemma prefix_refl (s : string) : String.prefix s s = true.
Proof.
  induction s as [|c s IH]; cbn; [reflexivity|].
  destruct (ascii_dec c c); [exact IH|congruence].
Qed.

Lemma fake_provisioning_contract
  (fetch : GetLogEventsInput -> GetLogEventsOutput * option error) :
  ProvisioningContract (fake.cloudwatch fetch) (fun w => w).
Proof.
  constructor.
  - intros name w. eexists. split; [reflexivity|].
    intros Hin. cbn. apply in_map_iff. exists name. split; [reflexivity|].
    apply filter_In. split; [exact Hin|apply prefix_refl].
  - intros name w w'. cbn.
    destruct (existsb (String.eqb name) w); [discriminate|].
    intros H. inversion H; subst. apply in_or_app. right. left. reflexivity.
  - intros name days w r w'. cbn.
    destruct (existsb (String.eqb name) w);
      intros H; inversion H; subst; trivial.
Qed.

Section InsertionSort.

Context {A : Type} (less : A -> A -> bool).
Hypothesis asym : forall x y, less x y = true -> less y x = false.
Hypothesis negtrans :
  forall x y z, less x y = false -> less y z = false -> less x z = false.

Lemma insert_perm (x : A) (l : list A) :
  Permutation (x :: l) (fake.insert less x l).
Proof.
  induction l as [|y rest IH]; cbn; [reflexivity|].
  destruct (less x y); [reflexivity|].
  eapply Permutation_trans; [apply perm_swap|].
  apply perm_skip. exact IH.
Qed.

Lemma insertionSort_perm (l : list A) :
  Permutation l (fake.insertionSort less l).
Proof.
  induction l as [|x rest IH]; cbn; [constructor|].
  eapply Permutation_trans; [|apply insert_perm].
  apply perm_skip. exact IH.
Qed.

Lemma insert_sorted (x : A) (l : list A) :
  StronglySorted (fun a b => less b a = false) l ->
  StronglySorted (fun a b => less b a = false) (fake.insert less x l).
Proof.
  induction 1 as [|y rest Hs IH Hall]; cbn.
  - repeat constructor.
  - destruct (less x y) eqn:Hxy.
    + constructor; [constructor; assumption|].
      constructor; [apply asym; exact Hxy|].
      revert Hall. apply Forall_impl. intros z Hz.
      apply (negtrans z y x); [exact Hz|apply asym; exact Hxy].
    + constructor; [exact IH|].
      eapply Permutation_Forall; [apply insert_perm|].
      constructor; assumption.
Qed.

Lemma insertionSort_sorted (l : list A) :
  StronglySorted (fun a b => less b a = false) (fake.insertionSort less l).
Proof.
  induction l as [|x rest IH]; cbn; [constructor|].
  apply insert_sorted. exact IH.
Qed.

End InsertionSort.

Lemma fake_sort_contract : SortContract fake.runtime.
Proof.
  intros A less data asym negtrans. split.
  - apply insertionSort_perm.
  - apply insertionSort_sorted; assumption.
Qed.

Lemma fake_throttle_contract : ThrottleContract fake.runtime.
Proof.
  intros [code text| | | |] H; cbn in H; try discriminate.
  exists code, text. split; [reflexivity|].
  intros ->. cbn in H. discriminate.
Qed.

(* ================================================================== *)
(** ** The theorems at concrete inputs *)
(* ================================================================== *)

Lemma Logs_throttled_witness :
  let err := AwsError "ThrottlingException" "ThrottlingException: Rate exceeded" in
  let aws := fake.cloudwatch (fake.answer [] None (Some err)) in
  let request := {| LogGroupName := "flotilla";
                    LogStreamName := "p/c/abc123";
                    StartFromHead := true;
                    NextToken := Some "token-1" |} in
  IsErrorThrottle (Runtime := fake.runtime) err = true /\
  @logs.Logs _ aws fake.runtime fake.client (Some fake.executable)
    (fake.run "RUNNING" "ecs") (Some "token-1") []
  = (Returns ("", Some "token-1", None), [],
     [AwsGetLogEvents request; LoggerPrintf "abc" "run-1" err]).
Proof.
  intros err aws request.
  split; [reflexivity|].
  exact (@Logs_throttled _ aws fake.runtime fake.client
           fake_throttle_contract fake.executable (fake.run "RUNNING" "ecs")
           (Some "token-1") "p/c/abc123"
           {| Events := []; NextForwardToken := None |} err [] []
           eq_refl eq_refl eq_refl).
Defined.

Lemma Logs_no_events_witness :
  let aws := fake.cloudwatch (fake.answer [] (Some "f/1") None) in
  let request := {| LogGroupName := "flotilla";
                    LogStreamName := "p/c/abc123";
                    StartFromHead := true;
                    NextToken := Some "f/0" |} in
  @logs.Logs _ aws fake.runtime fake.client (Some fake.executable)
    (fake.run "RUNNING" "ecs") (Some "f/0") []
  = (Returns ("", Some "f/1", None), [], [AwsGetLogEvents request]).
Proof.
  intros aws request.
  exact (@Logs_no_events _ aws fake.runtime fake.client fake.executable
           (fake.run "RUNNING" "ecs") (Some "f/0") (Some "f/1") "p/c/abc123"
           [] [] eq_refl eq_refl).
Defined.

Lemma Logs_missing_resource_witness :
  let text := "ResourceNotFoundException: The specified log stream does not exist." in
  let aws := fake.cloudwatch
               (fake.answer [] None
                  (Some (AwsError "ResourceNotFoundException" text))) in
  let request := {| LogGroupName := "flotilla";
                    LogStreamName := "p/c/abc123";
                    StartFromHead := true;
                    NextToken := None |} in
  @logs.Logs _ aws fake.runtime fake.client (Some fake.executable)
    (fake.run "RUNNING" "ecs") None []
  = (Returns ("", None, Some (MissingResource text)), [],
     [AwsGetLogEvents request]) /\
  @logs.LogsText fake.World fake.client (Some fake.executable)
    (fake.run "RUNNING" "ecs") (Sink 0) []
  = (Returns
       (Some (Errorf "ECSCloudWatchLogsClient does not support LogsText method.")),
     [], []).
Proof.
  intros text aws request.
  destruct (@Logs_missing_resource _ aws fake.runtime fake.client
              fake.executable (fake.run "RUNNING" "ecs") None "p/c/abc123"
              text {| Events := []; NextForwardToken := None |} [] []
              eq_refl eq_refl) as (HLogs & _ & HText).
  split; [exact HLogs|apply HText].
Defined.

Lemma Logs_sorts_by_timestamp_witness :
  let events := [ {| Timestamp := 3; Message := "c" |};
                  {| Timestamp := 1; Message := "a" |};
                  {| Timestamp := 2; Message := "b" |} ] in
  let aws := fake.cloudwatch (fake.answer events (Some "f/3") None) in
  let request := {| LogGroupName := "flotilla";
                    LogStreamName := "p/c/abc123";
                    StartFromHead := true;
                    NextToken := None |} in
  (exists sorted,
     Permutation events sorted /\
     ascending sorted /\
     @logs.Logs _ aws fake.runtime fake.client (Some fake.executable)
       (fake.run "RUNNING" "ecs") None []
     = (Returns (String.concat (String "010"%char EmptyString)
                               (map Message sorted),
                 Some "f/3", None),
        [], [AwsGetLogEvents request])) /\
  @logs.Logs _ aws fake.runtime fake.client (Some fake.executable)
    (fake.run "RUNNING" "ecs") None []
  = (Returns (String "a"%char (String "010"%char
                (String "b"%char (String "010"%char
                   (String "c"%char EmptyString)))),
              Some "f/3", None),
     [], [AwsGetLogEvents request]).
Proof.
  intros events aws request.
  assert (Hne : events <> []) by discriminate.
  destruct (@Logs_sorts_by_timestamp _ aws fake.runtime
              fake_sort_contract fake.client fake.executable
              (fake.run "RUNNING" "ecs") None (Some "f/3") "p/c/abc123"
              events [] [] eq_refl eq_refl Hne) as (Hsorted & _ & Hexample).
  split; [exact Hsorted|exact (Hexample eq_refl)].
Defined.

Lemma provisioning_idempotent_witness :
  let aws := fake.cloudwatch (fake.answer [] None None) in
  let provision := @logs.createNamespaceIfNotExists _ aws fake.client in
  provision ["flotilla"]
  = (Returns None, ["flotilla"], [AwsDescribeLogGroups "flotilla"]) /\
  provision []
  = (Returns None, ["flotilla"],
     [AwsDescribeLogGroups "flotilla"; AwsCreateLogGroup "flotilla";
      AwsPutRetentionPolicy "flotilla" 30]) /\
  (first <- provision ;; second <- provision ;; ret (first, second)) []
  = (Returns (None, None), ["flotilla"],
     [AwsDescribeLogGroups "flotilla"; AwsCreateLogGroup "flotilla";
      AwsPutRetentionPolicy "flotilla" 30; AwsDescribeLogGroups "flotilla"]).
Proof.
  intros aws provision.
  destruct (@provisioning_idempotent _ aws fake.client (fun w => w)
              (fake_provisioning_contract (fake.answer [] None None)))
    as [Hfound Htwice].
  split; [|split].
  - exact (proj1 (Hfound ["flotilla"] ["flotilla"]
                    {| LogGroups := [{| GroupName := "flotilla" |}] |}
                    eq_refl (or_introl eq_refl))).
  - reflexivity.
  - exact (proj1 (Htwice [] ["flotilla"]
                    [AwsDescribeLogGroups "flotilla";
                     AwsCreateLogGroup "flotilla";
                     AwsPutRetentionPolicy "flotilla" 30] eq_refl)).
Defined.

(* ================================================================== *)
(** ** Further properties of the orchestrator *)
(* ================================================================== *)

Section OrchestratorPaths.

Context {W : Type} {K : Constants} {sm : Manager W} {lc : Client W}.

(** X1.  When the run cannot be loaded, both operations return the error of
    [GetRun] as it is, and [GetRun] is the only call they make. *)
Theorem load_failure_propagates
  (runID : string) (lastSeen : option string) (sink : ResponseWriter)
  (w w1 : W) (run : Run) (e : error) :
  GetRun runID w = ((run, Some e), w1) ->
  services.Logs runID lastSeen w
    = (Returns ("", None, Some e), w1, [SmGetRun runID]) /\
  services.LogsText runID sink w = (Returns (Some e), w1, [SmGetRun runID]).
Proof.
  intros Hrun. unfold services.Logs, services.LogsText.
  split; go_call Hrun; reflexivity.
Qed.

(** X2.  When the lookup of the executable succeeds, [Logs] hands the descriptor
    and the run, defaults applied, to the log client and returns what the
    client returns, with the world the client leaves; the engine of the run
    is not read, so a run without one is served as well. *)
Theorem lookup_success_delegates
  (runID : string) (lastSeen : option string) (w w1 w2 : W) (run : Run)
  (executable : option Executable) :
  let t := match ExecutableType run with
           | Some t => t | None => ExecutableTypeDefinition end in
  let id := match ExecutableID run with
            | Some id => id | None => DefinitionID run end in
  let run' := services.defaultExecutableID (services.defaultExecutableType run) in
  GetRun runID w = ((run, None), w1) ->
  Status run = StatusRunning \/ Status run = StatusStopped ->
  GetExecutableByTypeAndID t id w1 = ((executable, None), w2) ->
  services.Logs runID lastSeen w =
    match ClientLogs executable run' lastSeen w2 with
    | (o, w3, tr) =>
        (o, w3, SmGetRun runID :: SmGetExecutableByTypeAndID t id
                :: LcLogs executable run' lastSeen :: tr)
    end.
Proof.
  intros t id run' Hrun Hstatus Hexe.
  exact (Logs_past_gate runID lastSeen w w1 w2 run executable None
           Hrun (gate_open run Hstatus) Hexe).
Qed.

(** X5.  When the lookup fails for a run that has no engine, [Logs] panics on
    the nil engine, after the lookup and before any call of the log
    client. *)
Theorem lookup_failure_without_engine_panics
  (runID : string) (lastSeen : option string) (w w1 w2 : W) (run : Run)
  (executable : option Executable) (e : error) :
  let t := match ExecutableType run with
           | Some t => t | None => ExecutableTypeDefinition end in
  let id := match ExecutableID run with
            | Some id => id | None => DefinitionID run end in
  GetRun runID w = ((run, None), w1) ->
  Status run = StatusRunning \/ Status run = StatusStopped ->
  GetExecutableByTypeAndID t id w1 = ((executable, Some e), w2) ->
  Engine run = None ->
  services.Logs runID lastSeen w
    = (Panics, w2, [SmGetRun runID; SmGetExecutableByTypeAndID t id]).
Proof.
  intros t id Hrun Hstatus Hexe Hengine.
  rewrite (Logs_past_gate runID lastSeen w w1 w2 run executable (Some e)
             Hrun (gate_open run Hstatus) Hexe).
  rewrite Hengine. reflexivity.
Qed.

(** X6.  Past the status gate, [LogsText] calls the log client whatever the
    lookup of the executable returned, error or not and for every engine:
    it hands over the descriptor as returned and the run with the defaults
    applied, and returns what the client returns. *)
Theorem LogsText_ignores_lookup_outcome
  (runID : string) (sink : ResponseWriter) (w w1 w2 : W) (run : Run)
  (executable : option Executable) (err : option error) :
  let t := match ExecutableType run with
           | Some t => t | None => ExecutableTypeDefinition end in
  let id := match ExecutableID run with
            | Some id => id | None => DefinitionID run end in
  let run' := services.defaultExecutableID (services.defaultExecutableType run) in
  GetRun runID w = ((run, None), w1) ->
  Status run = StatusRunning \/ Status run = StatusStopped ->
  GetExecutableByTypeAndID t id w1 = ((executable, err), w2) ->
  services.LogsText runID sink w =
    match ClientLogsText executable run' sink w2 with
    | (o, w3, tr) =>
        (o, w3, SmGetRun runID :: SmGetExecutableByTypeAndID t id
                :: LcLogsText executable run' sink :: tr)
    end.
Proof.
  intros t id run' Hrun Hstatus Hexe.
  exact (LogsText_past_gate runID sink w w1 w2 run executable err
           Hrun (gate_open run Hstatus) Hexe).
Qed.

End OrchestratorPaths.

Section OverCloudWatch.

Context {W : Type} {K : Constants} {sm : Manager W}.
Context {aws : logsClient W} {rt : Runtime}.
Variable cwl : logs.ECSCloudWatchLogsClient.

(** X7.  The orchestrator over the CloudWatch client: for a run that passes the
    status gate, [LogsText] returns the client's "not supported" error
    whatever the lookup of the executable gave, and the backend is not
    called. *)
Theorem LogsText_over_cloudwatch
  (runID : string) (sink : ResponseWriter) (w w1 : W) (run : Run) :
  GetRun runID w = ((run, None), w1) ->
  Status run = StatusRunning \/ Status run = StatusStopped ->
  let t := match ExecutableType run with
           | Some t => t | None => ExecutableTypeDefinition end in
  let id := match ExecutableID run with
            | Some id => id | None => DefinitionID run end in
  let run' := services.defaultExecutableID (services.defaultExecutableType run) in
  @services.LogsText W K sm (logs.asClient cwl) runID sink w
  = (Returns
       (Some (Errorf "ECSCloudWatchLogsClient does not support LogsText method.")),
     snd (GetExecutableByTypeAndID t id w1),
     [SmGetRun runID; SmGetExecutableByTypeAndID t id;
      LcLogsText (fst (fst (GetExecutableByTypeAndID t id w1))) run' sink]).
Proof.
  intros Hrun Hstatus t id run'.
  destruct (GetExecutableByTypeAndID t id w1) as [[exe err] w2] eqn:Hexe.
  rewrite (@LogsText_past_gate W K sm (logs.asClient cwl) runID sink
             w w1 w2 run exe err Hrun (gate_open run Hstatus) Hexe).
  reflexivity.
Qed.

(** X8.  The orchestrator over the CloudWatch client: a lookup that fails with a
    nil descriptor, tolerated because the engine is not ECS, ends in a
    panic: the client dereferences the descriptor to name the stream, before
    it calls the backend. *)
Theorem tolerated_nil_descriptor_panics
  (runID : string) (lastSeen : option string) (w w1 w2 : W) (run : Run)
  (e : error) (engine : string) :
  let t := match ExecutableType run with
           | Some t => t | None => ExecutableTypeDefinition end in
  let id := match ExecutableID run with
            | Some id => id | None => DefinitionID run end in
  let run' := services.defaultExecutableID (services.defaultExecutableType run) in
  GetRun runID w = ((run, None), w1) ->
  Status run = StatusRunning \/ Status run = StatusStopped ->
  GetExecutableByTypeAndID t id w1 = ((None, Some e), w2) ->
  Engine run = Some engine ->
  engine <> ECSEngine ->
  @services.Logs W K sm (logs.asClient cwl) runID lastSeen w
  = (Panics, w2,
     [SmGetRun runID; SmGetExecutableByTypeAndID t id;
      LcLogs None run' lastSeen]).
Proof.
  intros t id run' Hrun Hstatus Hexe Hengine Hne.
  rewrite (@Logs_past_gate W K sm (logs.asClient cwl)
             runID lastSeen w w1 w2 run None (Some e)
             Hrun (gate_open run Hstatus) Hexe).
  rewrite Hengine. apply String.eqb_neq in Hne. rewrite Hne.
  reflexivity.
Qed.

End OverCloudWatch.

(* ================================================================== *)
(** ** Further properties of the CloudWatch client *)
(* ================================================================== *)

Lemma in_append_separator (sep : ascii) (before after : string) :
  In sep (list_ascii_of_string (before ++ String sep after)).
Proof.
  induction before as [|c before IH]; cbn; [left; reflexivity|right; exact IH].
Qed.

(** A string has one final segment. *)
Lemma finalSegment_unique (sep : ascii) (s a b : string) :
  finalSegment sep s a -> finalSegment sep s b -> a = b.
Proof.
  intros [Ha [Hsa|[p Hp]]] [Hb [Hsb|[q Hq]]].
  - congruence.
  - exfalso. apply Ha. rewrite <- Hsa, Hq. apply in_append_separator.
  - exfalso. apply Hb. rewrite <- Hsb, Hp. apply in_append_separator.
  - rewrite Hp in Hq. clear Hp s.
    revert q Hq. induction p as [|c p IH]; intros [|d q] Hq; cbn in Hq.
    + congruence.
    + exfalso. apply Ha. inversion Hq; subst. apply in_append_separator.
    + exfalso. apply Hb. inversion Hq; subst. apply in_append_separator.
    + inversion Hq; subst. eapply IH; eassumption.
Qed.

Section ClientPaths.

Context {W : Type} {aws : logsClient W} {rt : Runtime}.
Variable cwl : logs.ECSCloudWatchLogsClient.

(** X9.  Whatever final segment the task handle has is the one in the stream
    handle: a task handle without "/" is used whole, one that ends in "/"
    gives an empty last part. *)
Theorem stream_handle_of_segment
  (e : Executable) (run : Run) (segment : string) :
  finalSegment "/"%char (TaskArn run) segment ->
  logs.toStreamName cwl (Some e) run
  = Returns (logs.logStreamPrefix cwl ++ "/"
             ++ ContainerName (GetExecutableResources e) ++ "/"
             ++ segment).
Proof.
  intros Hseg.
  rewrite (toStreamName_returns cwl e run).
  rewrite (finalSegment_unique _ _ _ _ Hseg
             (last_Split_finalSegment "/"%char (TaskArn run))).
  reflexivity.
Qed.

(** X10.  A fetch that fails with an error that is neither "resource not found"
    nor a throttle: [Logs] returns the error wrapped with "problem getting
    logs", the empty text and a nil cursor (the cursor passed in is not
    handed back), after the single call. *)
Theorem Logs_wraps_other_failures
  (e : Executable) (run : Run) (lastSeen : option string)
  (handle : string) (result : GetLogEventsOutput) (err : error) (w w' : W) :
  logs.toStreamName cwl (Some e) run = Returns handle ->
  GetLogEvents (logs.getLogEventsInput cwl handle lastSeen) w
    = ((result, Some err), w') ->
  (forall text, err <> AwsError ErrCodeResourceNotFoundException text) ->
  IsErrorThrottle err = false ->
  logs.Logs cwl (Some e) run lastSeen w
    = (Returns ("", None, Some (Wrap err "problem getting logs")), w',
       [AwsGetLogEvents (logs.getLogEventsInput cwl handle lastSeen)]) /\
  Error (Wrap err "problem getting logs")
    = "problem getting logs: " ++ Error err.
Proof.
  intros Hhandle Hfetch Hfound Hthrottle.
  split; [|reflexivity].
  rewrite (Logs_after_fetch cwl e run lastSeen handle w w' _ _ Hhandle Hfetch).
  destruct err as [code text| | | |]; try reflexivity.
  destruct (code =? ErrCodeResourceNotFoundException) eqn:Hcode.
  - apply String.eqb_eq in Hcode. subst code.
    exfalso. exact (Hfound text eq_refl).
  - rewrite Hthrottle. reflexivity.
Qed.

(** [Logs] returns, after one fetch and at most one log line. *)
Lemma Logs_returns
  (e : Executable) (run : Run) (lastSeen : option string) (w : W) :
  exists handle o rest,
    logs.toStreamName cwl (Some e) run = Returns handle /\
    logs.Logs cwl (Some e) run lastSeen w
    = (Returns o,
       snd (GetLogEvents (logs.getLogEventsInput cwl handle lastSeen) w),
       AwsGetLogEvents (logs.getLogEventsInput cwl handle lastSeen) :: rest) /\
    forallb isLogLine rest = true /\
    (length rest <= 1)%nat.
Proof.
  pose proof (toStreamName_returns cwl e run) as Hhandle.
  set (handle := (logs.logStreamPrefix cwl ++ _)%string) in Hhandle.
  destruct (GetLogEvents (logs.getLogEventsInput cwl handle lastSeen) w)
    as [[result err] w'] eqn:Hfetch.
  exists handle.
  rewrite (Logs_after_fetch cwl e run lastSeen handle w w' _ _ Hhandle Hfetch).
  rewrite Hfetch. cbn [snd].
  assert (Hdone : forall (o : string * option string * option error)
                         (rest : list Call) (w0 : W) (tr : Call),
            forallb isLogLine rest = true -> (length rest <= 1)%nat ->
            exists o' rest',
              logs.toStreamName cwl (Some e) run = Returns handle /\
              (Returns o, w0, tr :: rest) = (Returns o', w0, tr :: rest') /\
              forallb isLogLine rest' = true /\ (length rest' <= 1)%nat).
  { intros o rest w0 tr Hlog Hlen. exists o, rest. auto. }
  destruct err as [[code text| | | |]|];
    try (apply Hdone; cbn; solve [reflexivity|lia]).
  - destruct (code =? ErrCodeResourceNotFoundException);
      [apply Hdone; cbn; solve [reflexivity|lia]|].
    destruct (IsErrorThrottle (AwsError code text));
      apply Hdone; cbn; solve [reflexivity|lia].
Qed.

(** X11.  For a descriptor that is not nil, [Logs] calls the backend once
    and does not retry: its first call is the [GetLogEvents] for the
    configured log group and the stream named after the prefix, the
    container and the final segment of the task handle, from the head and
    with the cursor as token when it is not empty; at most one log line
    follows and nothing else; the world is the one that call leaves. *)
Theorem Logs_fetches_once
  (e : Executable) (run : Run) (lastSeen : option string) (w : W) :
  exists segment o rest,
    finalSegment "/"%char (TaskArn run) segment /\
    let request :=
      {| LogGroupName := logs.logNamespace cwl;
         LogStreamName := logs.logStreamPrefix cwl ++ "/"
                          ++ ContainerName (GetExecutableResources e) ++ "/"
                          ++ segment;
         StartFromHead := true;
         NextToken := match lastSeen with
                      | Some (String c token) => Some (String c token)
                      | _ => None
                      end |} in
    logs.Logs cwl (Some e) run lastSeen w
    = (o, snd (GetLogEvents request w), AwsGetLogEvents request :: rest) /\
    forallb isLogLine rest = true /\
    (length rest <= 1)%nat.
Proof.
  destruct (Logs_returns e run lastSeen w)
    as (handle & o & rest & Hhandle & HLogs & Hlines & Hlen).
  rewrite (toStreamName_returns cwl e run) in Hhandle.
  injection Hhandle as <-.
  exists (last (logs.strings_Split (TaskArn run) "/"%char) ""), (Returns o), rest.
  split; [apply last_Split_finalSegment|].
  cbv zeta. split; [|split; assumption].
  rewrite HLogs.
  destruct lastSeen as [[|c token]|]; reflexivity.
Qed.

(** X12.  A cursor that is not empty goes to the backend as the continuation
    token of the request, which still asks to start from the head. *)
Theorem Logs_resumes_from_cursor
  (e : Executable) (run : Run) (token : string) (w : W) :
  token <> "" ->
  exists handle o w' rest,
    logs.toStreamName cwl (Some e) run = Returns handle /\
    logs.Logs cwl (Some e) run (Some token) w
    = (o, w',
       AwsGetLogEvents {| LogGroupName := logs.logNamespace cwl;
                          LogStreamName := handle;
                          StartFromHead := true;
                          NextToken := Some token |} :: rest).
Proof.
  intros Htoken.
  destruct (Logs_returns e run (Some token) w)
    as (handle & o & rest & Hhandle & HLogs & _).
  exists handle, (Returns o). do 2 eexists. split; [exact Hhandle|].
  rewrite HLogs.
  destruct token as [|c token]; [congruence|]. reflexivity.
Qed.

End ClientPaths.

(* ================================================================== *)
(** ** Further properties of namespace provisioning *)
(* ================================================================== *)

Lemma anyGroupNamed_iff (name : string) (groups : list LogGroup) :
  logs.anyGroupNamed name groups = true <->
  In {| GroupName := name |} groups.
Proof.
  split; [|apply anyGroupNamed_In].
  induction groups as [|[n] rest IH]; cbn; [discriminate|].
  destruct (n =? name) eqn:Hn.
  - apply String.eqb_eq in Hn. subst n. intros _. left. reflexivity.
  - intros H. right. apply IH, H.
Qed.

Section ProvisioningPaths.

Context {W : Type} {aws : logsClient W}.
Variable cwl : logs.ECSCloudWatchLogsClient.

(** What the existence check answers. *)
Lemma namespaceExists_answer
  (w w' : W) (out : DescribeLogGroupsOutput) :
  DescribeLogGroups (logs.logNamespace cwl) w = ((out, None), w') ->
  exists found,
    logs.namespaceExists cwl w
    = (Returns (found, None), w',
       [AwsDescribeLogGroups (logs.logNamespace cwl)]) /\
    (found = true <->
     In {| GroupName := logs.logNamespace cwl |} (LogGroups out)).
Proof.
  intros Hdescribe.
  unfold logs.namespaceExists. go_call Hdescribe.
  destruct (LogGroups out) as [|g rest] eqn:Hgroups; cbn [length Nat.eqb].
  - exists false. split; [reflexivity|]. split; [discriminate|intros []].
  - eexists. split; [reflexivity|]. apply anyGroupNamed_iff.
Qed.

(** X13.  The existence check answers true exactly when the backend lists a log
    group whose name is the configured namespace; groups that only begin
    with it do not count. *)
Theorem namespaceExists_exact
  (w w' : W) (out : DescribeLogGroupsOutput) :
  DescribeLogGroups (logs.logNamespace cwl) w = ((out, None), w') ->
  exists found,
    logs.namespaceExists cwl w
    = (Returns (found, None), w',
       [AwsDescribeLogGroups (logs.logNamespace cwl)]) /\
    (found = true <->
     In {| GroupName := logs.logNamespace cwl |} (LogGroups out)).
Proof. exact (namespaceExists_answer w w' out). Qed.

(** [createNamespace], by what the backend answers. *)
Lemma createNamespace_paths (w : W) :
  match CreateLogGroup (logs.logNamespace cwl) w with
  | (Some e, w2) =>
      logs.createNamespace cwl w
      = (Returns (Some (Wrap e
                    ("problem creating log group with log group name ["
                     ++ logs.logNamespace cwl ++ "]"))),
         w2, [AwsCreateLogGroup (logs.logNamespace cwl)])
  | (None, w2) =>
      match PutRetentionPolicy (logs.logNamespace cwl)
                               (logs.logRetentionInDays cwl) w2 with
      | (Some e, w3) =>
          logs.createNamespace cwl w
          = (Returns (Some (Wrap e
                        ("problem setting log group retention policy for log group name ["
                         ++ logs.logNamespace cwl ++ "]"))),
             w3, [AwsCreateLogGroup (logs.logNamespace cwl);
                  AwsPutRetentionPolicy (logs.logNamespace cwl)
                                        (logs.logRetentionInDays cwl)])
      | (None, w3) =>
          logs.createNamespace cwl w
          = (Returns None, w3,
             [AwsCreateLogGroup (logs.logNamespace cwl);
              AwsPutRetentionPolicy (logs.logNamespace cwl)
                                    (logs.logRetentionInDays cwl)])
      end
  end.
Proof.
  unfold logs.createNamespace.
  destruct (CreateLogGroup (logs.logNamespace cwl) w) as [[e|] w2] eqn:Hc.
  - go_call Hc. reflexivity.
  - destruct (PutRetentionPolicy (logs.logNamespace cwl)
                (logs.logRetentionInDays cwl) w2) as [[e|] w3] eqn:Hp;
      go_call Hc; go_call Hp; reflexivity.
Qed.

(** [createNamespaceIfNotExists] when the query finds no group of the
    name: the creation follows. *)
Lemma provisioning_creates
  (w w1 : W) (out : DescribeLogGroupsOutput) :
  DescribeLogGroups (logs.logNamespace cwl) w = ((out, None), w1) ->
  ~ In {| GroupName := logs.logNamespace cwl |} (LogGroups out) ->
  logs.createNamespaceIfNotExists cwl w
  = match logs.createNamespace cwl w1 with
    | (o, w2, t) =>
        (o, w2, AwsDescribeLogGroups (logs.logNamespace cwl) :: t)
    end.
Proof.
  intros Hdescribe Habsent.
  destruct (namespaceExists_answer w w1 out Hdescribe)
    as (found & Hexists & Hfound).
  destruct found; [exfalso; apply Habsent, Hfound; reflexivity|].
  unfold logs.createNamespaceIfNotExists.
  unfold bind at 1. rewrite Hexists. cbn [negb].
  destruct (logs.createNamespace cwl w1) as [[o w2] t]. reflexivity.
Qed.

(** The shape of one provisioning. *)
Lemma provisioning_shape (w : W) :
  exists r w' n,
    logs.createNamespaceIfNotExists cwl w
    = (Returns r, w',
       firstn (S n)
         [AwsDescribeLogGroups (logs.logNamespace cwl);
          AwsCreateLogGroup (logs.logNamespace cwl);
          AwsPutRetentionPolicy (logs.logNamespace cwl)
                                (logs.logRetentionInDays cwl)]) /\
    (n <= 2)%nat /\
    (r = None -> n = 0%nat \/ n = 2%nat).
Proof.
  destruct (DescribeLogGroups (logs.logNamespace cwl) w)
    as [[out [e|]] w1] eqn:Hdescribe.
  - unfold logs.createNamespaceIfNotExists, logs.namespaceExists.
    rewrite bind_assoc. go_call Hdescribe.
    do 2 eexists; exists 0%nat. split; [reflexivity|].
    split; [lia|discriminate].
  - destruct (namespaceExists_answer w w1 out Hdescribe)
      as (found & Hexists & Hfound).
    destruct found.
    + unfold logs.createNamespaceIfNotExists.
      unfold bind at 1. rewrite Hexists.
      do 2 eexists; exists 0%nat. split; [reflexivity|]. split; [lia|auto].
    + rewrite (provisioning_creates w w1 out Hdescribe)
        by (intros Hin; apply Hfound in Hin; discriminate).
      pose proof (createNamespace_paths w1) as Hpaths.
      destruct (CreateLogGroup (logs.logNamespace cwl) w1) as [[e|] w2].
      * rewrite Hpaths. do 2 eexists; exists 1%nat.
        split; [reflexivity|]. split; [lia|discriminate].
      * destruct (PutRetentionPolicy (logs.logNamespace cwl)
                    (logs.logRetentionInDays cwl) w2) as [[e|] w3];
          rewrite Hpaths; do 2 eexists; exists 2%nat;
          (split; [reflexivity|]); (split; [lia|auto]).
Qed.

(** X14.  The calls of one provisioning are a beginning of: the query,
    the creation, the retention policy, each for the configured namespace
    and retention, and nothing is retried.  The creation is asked for only
    when the query succeeded and listed no group of the name, and the
    retention policy only when the backend accepted the creation; the
    provisioning succeeds only after the query alone or after all three. *)
Theorem provisioning_calls (w : W) :
  exists o w' n,
    logs.createNamespaceIfNotExists cwl w
    = (o, w',
       firstn (S n)
         [AwsDescribeLogGroups (logs.logNamespace cwl);
          AwsCreateLogGroup (logs.logNamespace cwl);
          AwsPutRetentionPolicy (logs.logNamespace cwl)
                                (logs.logRetentionInDays cwl)]) /\
    (n <= 2)%nat /\
    (o = Returns None -> n = 0%nat \/ n = 2%nat) /\
    ((1 <= n)%nat ->
     exists out,
       fst (DescribeLogGroups (logs.logNamespace cwl) w) = (out, None) /\
       ~ In {| GroupName := logs.logNamespace cwl |} (LogGroups out)) /\
    (n = 2%nat ->
     fst (CreateLogGroup (logs.logNamespace cwl)
            (snd (DescribeLogGroups (logs.logNamespace cwl) w))) = None).
Proof.
  destruct (DescribeLogGroups (logs.logNamespace cwl) w)
    as [[out [e|]] w1] eqn:Hdescribe; cbn [fst snd].
  - unfold logs.createNamespaceIfNotExists, logs.namespaceExists.
    rewrite bind_assoc. go_call Hdescribe.
    do 2 eexists; exists 0%nat. split; [reflexivity|].
    split; [lia|]. split; [discriminate|]. split; intros; lia.
  - destruct (namespaceExists_answer w w1 out Hdescribe)
      as (found & Hexists & Hfound).
    destruct found.
    + unfold logs.createNamespaceIfNotExists.
      unfold bind at 1. rewrite Hexists.
      do 2 eexists; exists 0%nat. split; [reflexivity|].
      split; [lia|]. split; [auto|]. split; intros; lia.
    + assert (Habsent :
        ~ In {| GroupName := logs.logNamespace cwl |} (LogGroups out))
        by (intros Hin; apply Hfound in Hin; discriminate).
      rewrite (provisioning_creates w w1 out Hdescribe Habsent).
      pose proof (createNamespace_paths w1) as Hpaths.
      destruct (CreateLogGroup (logs.logNamespace cwl) w1) as [[e|] w2];
        cbn [fst].
      * rewrite Hpaths. do 2 eexists; exists 1%nat.
        split; [reflexivity|]. split; [lia|]. split; [discriminate|].
        split; [intros _; exists out; auto|intros; lia].
      * destruct (PutRetentionPolicy (logs.logNamespace cwl)
                    (logs.logRetentionInDays cwl) w2) as [[e|] w3];
          rewrite Hpaths; do 2 eexists; exists 2%nat;
          (split; [reflexivity|]); (split; [lia|]); (split; [auto|]);
          (split; [intros _; exists out; auto|reflexivity]).
Qed.

(** X15.  When the query itself fails, provisioning returns that error, wrapped
    by the existence check and again by the caller, and creates nothing. *)
Theorem provisioning_query_failure
  (w w1 : W) (out : DescribeLogGroupsOutput) (e : error) :
  DescribeLogGroups (logs.logNamespace cwl) w = ((out, Some e), w1) ->
  let failure :=
    Wrap (Wrap e ("problem describing log groups with prefix ["
                  ++ logs.logNamespace cwl ++ "]"))
         ("problem checking if log namespace ["
          ++ logs.logNamespace cwl ++ "] exists") in
  logs.createNamespaceIfNotExists cwl w
  = (Returns (Some failure), w1,
     [AwsDescribeLogGroups (logs.logNamespace cwl)]) /\
  Error failure
  = "problem checking if log namespace [" ++ logs.logNamespace cwl
    ++ "] exists: problem describing log groups with prefix ["
    ++ logs.logNamespace cwl ++ "]: " ++ Error e.
Proof.
  intros Hdescribe failure. split.
  - unfold logs.createNamespaceIfNotExists, logs.namespaceExists.
    rewrite bind_assoc. go_call Hdescribe. reflexivity.
  - subst failure. cbn [Error]. rewrite !append_assoc. reflexivity.
Qed.

(** X16.  When no group of the name is listed and the creation fails,
    provisioning returns the wrapped error of the creation and does not go
    on to set a retention policy. *)
Theorem provisioning_creation_failure
  (w w1 w2 : W) (out : DescribeLogGroupsOutput) (e : error) :
  DescribeLogGroups (logs.logNamespace cwl) w = ((out, None), w1) ->
  ~ In {| GroupName := logs.logNamespace cwl |} (LogGroups out) ->
  CreateLogGroup (logs.logNamespace cwl) w1 = (Some e, w2) ->
  logs.createNamespaceIfNotExists cwl w
  = (Returns (Some (Wrap e
                ("problem creating log group with log group name ["
                 ++ logs.logNamespace cwl ++ "]"))),
     w2,
     [AwsDescribeLogGroups (logs.logNamespace cwl);
      AwsCreateLogGroup (logs.logNamespace cwl)]).
Proof.
  intros Hdescribe Habsent Hcreate.
  rewrite (provisioning_creates w w1 out Hdescribe Habsent).
  pose proof (createNamespace_paths w1) as Hpaths.
  rewrite Hcreate in Hpaths. rewrite Hpaths. reflexivity.
Qed.

(** X17.  When no group of the name is listed and the backend accepts both
    calls, provisioning creates the group and sets the configured retention
    on it, in this order, and succeeds. *)
Theorem provisioning_creates_with_retention
  (w w1 w2 w3 : W) (out : DescribeLogGroupsOutput) :
  DescribeLogGroups (logs.logNamespace cwl) w = ((out, None), w1) ->
  ~ In {| GroupName := logs.logNamespace cwl |} (LogGroups out) ->
  CreateLogGroup (logs.logNamespace cwl) w1 = (None, w2) ->
  PutRetentionPolicy (logs.logNamespace cwl) (logs.logRetentionInDays cwl) w2
    = (None, w3) ->
  logs.createNamespaceIfNotExists cwl w
  = (Returns None, w3,
     [AwsDescribeLogGroups (logs.logNamespace cwl);
      AwsCreateLogGroup (logs.logNamespace cwl);
      AwsPutRetentionPolicy (logs.logNamespace cwl)
                            (logs.logRetentionInDays cwl)]).
Proof.
  intros Hdescribe Habsent Hcreate Hput.
  rewrite (provisioning_creates w w1 out Hdescribe Habsent).
  pose proof (createNamespace_paths w1) as Hpaths.
  rewrite Hcreate, Hput in Hpaths. rewrite Hpaths. reflexivity.
Qed.

(** X18.  A retention policy that could not be set is not set later: when the
    creation succeeds and the policy fails, provisioning returns the error;
    over a backend that answers, the next provisioning finds the group,
    succeeds and only queries. *)
Theorem retention_failure_is_not_repaired
  (groups : W -> list string) (contract : ProvisioningContract aws groups)
  (w w1 w2 w3 : W) (out : DescribeLogGroupsOutput) (e : error) :
  DescribeLogGroups (logs.logNamespace cwl) w = ((out, None), w1) ->
  ~ In {| GroupName := logs.logNamespace cwl |} (LogGroups out) ->
  CreateLogGroup (logs.logNamespace cwl) w1 = (None, w2) ->
  PutRetentionPolicy (logs.logNamespace cwl) (logs.logRetentionInDays cwl) w2
    = (Some e, w3) ->
  logs.createNamespaceIfNotExists cwl w
  = (Returns (Some (Wrap e
                ("problem setting log group retention policy for log group name ["
                 ++ logs.logNamespace cwl ++ "]"))),
     w3,
     [AwsDescribeLogGroups (logs.logNamespace cwl);
      AwsCreateLogGroup (logs.logNamespace cwl);
      AwsPutRetentionPolicy (logs.logNamespace cwl)
                            (logs.logRetentionInDays cwl)]) /\
  logs.createNamespaceIfNotExists cwl w3
  = (Returns None, w3, [AwsDescribeLogGroups (logs.logNamespace cwl)]).
Proof.
  intros Hdescribe Habsent Hcreate Hput. split.
  - rewrite (provisioning_creates w w1 out Hdescribe Habsent).
    pose proof (createNamespace_paths w1) as Hpaths.
    rewrite Hcreate, Hput in Hpaths. rewrite Hpaths. reflexivity.
  - destruct (describe_lists aws groups contract (logs.logNamespace cwl) w3)
      as (out3 & Hdescribe3 & Hlisted).
    apply (provisioned_is_noop cwl w3 w3 out3 Hdescribe3).
    apply Hlisted.
    eapply (retention_keeps aws groups contract); [exact Hput|].
    eapply (create_adds aws groups contract). exact Hcreate.
Qed.

End ProvisioningPaths.

(* ================================================================== *)
(** ** Initialization of the CloudWatch client *)
(* ================================================================== *)

Lemma length_zero_iff (s : string) :
  (String.length s =? 0)%nat = (s =? "").
Proof. destruct s; reflexivity. Qed.

Section InitializationFacts.

Context {W : Type} {aws : logsClient W} {conf : Config} {sessions : Sessions}.

Let options := GetStringMapString "ecs.log.driver.options".

Lemma region_read :
  (if (String.length (mapIndex options "awslogs-region") =? 0)%nat
   then GetString "aws_default_region"
   else mapIndex options "awslogs-region") = regionOf conf.
Proof.
  unfold regionOf, mapIndex. fold options.
  destruct (mapLookup options "awslogs-region") as [[|c r]|]; reflexivity.
Qed.

Lemma namespace_read :
  match mapLookup options "awslogs-group" with
  | Some group =>
      if (String.length (GetString "ecs.log.namespace") =? 0)%nat
      then group else GetString "ecs.log.namespace"
  | None => GetString "ecs.log.namespace"
  end = namespaceOf conf.
Proof.
  unfold namespaceOf. fold options.
  destruct (mapLookup options "awslogs-group");
    destruct (GetString "ecs.log.namespace"); reflexivity.
Qed.

Lemma prefix_read : mapIndex options "awslogs-stream-prefix" = prefixOf conf.
Proof. reflexivity. Qed.

(** [Initialize] in terms of the settings. *)
Lemma Initialize_by_settings (cwl : logs.receiver) (w : W) :
  logs.Initialize cwl w =
  if regionOf conf =? "" then
    (Returns (cwl, Some (Errorf
       "ECSCloudWatchLogsClient needs one of [ecs.log.driver.options.awslogs-region] or [aws_default_region] set in config")),
     w, [])
  else if namespaceOf conf =? "" then
    (Returns
       ({| logs.fields :=
             {| logs.logRetentionInDays :=
                  logs.logRetentionInDays (logs.fields cwl);
                logs.logNamespace := namespaceOf conf;
                logs.logStreamPrefix :=
                  logs.logStreamPrefix (logs.fields cwl) |};
           logs.logsClientSet := logs.logsClientSet cwl;
           logs.loggerSet := logs.loggerSet cwl |},
        Some (Errorf
          "ECSCloudWatchLogsClient needs one of [ecs.log.driver.options.awslogs-group] or [ecs.log.namespace] set in config")),
     w, [])
  else if prefixOf conf =? "" then
    (Returns
       ({| logs.fields :=
             {| logs.logRetentionInDays :=
                  logs.logRetentionInDays (logs.fields cwl);
                logs.logNamespace := namespaceOf conf;
                logs.logStreamPrefix := prefixOf conf |};
           logs.logsClientSet := logs.logsClientSet cwl;
           logs.loggerSet := logs.loggerSet cwl |},
        Some (Errorf
          "ECSCloudWatchLogsClient needs [ecs.log.driver.options.awslogs-stream-prefix] set in config")),
     w, [])
  else
    let connected :=
      if negb (GetString "flotilla_mode" =? "test") then
        match NewSession (regionOf conf) with
        | Some _ => None
        | None => Some true
        end
      else Some (logs.logsClientSet cwl) in
    match connected with
    | Some true =>
        match logs.createNamespaceIfNotExists (configuredBy conf) w with
        | (Returns err, w', t) =>
            (Returns ({| logs.fields := configuredBy conf;
                         logs.logsClientSet := true;
                         logs.loggerSet := true |}, err), w', t)
        | (Panics, w', t) => (Panics, w', t)
        end
    | _ => (Panics, w, [])
    end.
Proof.
  unfold logs.Initialize. cbv zeta. fold options.
  rewrite region_read, namespace_read, prefix_read, !length_zero_iff.
  destruct (regionOf conf =? ""); [reflexivity|].
  destruct (namespaceOf conf =? ""); [reflexivity|].
  destruct (prefixOf conf =? ""); [reflexivity|].
  change (if (GetInt "ecs.log.retention_days" =? 0)%Z then 30%Z
          else GetInt "ecs.log.retention_days") with (retentionOf conf).
  change {| logs.logRetentionInDays := retentionOf conf;
            logs.logNamespace := namespaceOf conf;
            logs.logStreamPrefix := prefixOf conf |} with (configuredBy conf).
  cbn [logs.logsClientSet logs.loggerSet logs.fields
       logs.logRetentionInDays logs.logNamespace logs.logStreamPrefix].
  destruct (negb (GetString "flotilla_mode" =? "test")).
  - destruct (NewSession (regionOf conf)); [reflexivity|].
    rewrite bind_ret.
    unfold bind.
    destruct (logs.createNamespaceIfNotExists (configuredBy conf) w)
      as [[[err|] w'] t]; [|reflexivity].
    unfold ret. rewrite app_nil_r. reflexivity.
  - rewrite bind_ret.
    destruct (logs.logsClientSet cwl); [|reflexivity].
    unfold bind.
    destruct (logs.createNamespaceIfNotExists (configuredBy conf) w)
      as [[[err|] w'] t]; [|reflexivity].
    unfold ret. rewrite app_nil_r. reflexivity.
Qed.

(** X19.  A configuration that lacks the region, the namespace or the stream
    prefix: [Initialize] returns the error that names the first setting
    missing, in this order, without a call to the backend and without
    setting the client, the logger or the retention; a missing region
    leaves the receiver as it was. *)
Theorem Initialize_rejects_incomplete_config (cwl : logs.receiver) (w : W) :
  regionOf conf = "" \/ namespaceOf conf = "" \/ prefixOf conf = "" ->
  exists cwl' message,
    logs.Initialize cwl w = (Returns (cwl', Some (Errorf message)), w, []) /\
    message =
      (if regionOf conf =? "" then
         "ECSCloudWatchLogsClient needs one of [ecs.log.driver.options.awslogs-region] or [aws_default_region] set in config"
       else if namespaceOf conf =? "" then
         "ECSCloudWatchLogsClient needs one of [ecs.log.driver.options.awslogs-group] or [ecs.log.namespace] set in config"
       else
         "ECSCloudWatchLogsClient needs [ecs.log.driver.options.awslogs-stream-prefix] set in config") /\
    logs.logsClientSet cwl' = logs.logsClientSet cwl /\
    logs.loggerSet cwl' = logs.loggerSet cwl /\
    logs.logRetentionInDays (logs.fields cwl')
      = logs.logRetentionInDays (logs.fields cwl) /\
    (regionOf conf = "" -> cwl' = cwl).
Proof.
  intros Hmissing. rewrite Initialize_by_settings.
  destruct (regionOf conf =? "") eqn:Hregion.
  { do 2 eexists. split; [reflexivity|]. repeat split. }
  apply String.eqb_neq in Hregion.
  destruct (namespaceOf conf =? "") eqn:Hns.
  { do 2 eexists. split; [reflexivity|]. repeat split; try reflexivity.
    intros H; contradiction. }
  apply String.eqb_neq in Hns.
  destruct (prefixOf conf =? "") eqn:Hprefix.
  { do 2 eexists. split; [reflexivity|]. repeat split; try reflexivity.
    intros H; contradiction. }
  apply String.eqb_neq in Hprefix.
  destruct Hmissing as [H|[H|H]]; contradiction.
Qed.

(** X20.  A complete configuration and a client at hand (outside test mode a
    session that opens, in test mode a client set beforehand):
    [Initialize] provisions the namespace of the configuration and returns
    what the provisioning returns, with the calls of the provisioning only;
    the receiver then holds the settings, with a retention that is 30 when
    the configuration gives none or zero and is never zero. *)
Theorem Initialize_provisions (cwl : logs.receiver) (w : W) :
  regionOf conf <> "" ->
  namespaceOf conf <> "" ->
  prefixOf conf <> "" ->
  (GetString "flotilla_mode" <> "test" /\ NewSession (regionOf conf) = None) \/
  (GetString "flotilla_mode" = "test" /\ logs.logsClientSet cwl = true) ->
  exists err w' t,
    logs.createNamespaceIfNotExists (configuredBy conf) w
      = (Returns err, w', t) /\
    logs.Initialize cwl w
      = (Returns ({| logs.fields := configuredBy conf;
                     logs.logsClientSet := true;
                     logs.loggerSet := true |}, err), w', t) /\
    logs.logRetentionInDays (configuredBy conf) <> 0%Z /\
    (GetInt "ecs.log.retention_days" = 0%Z ->
     logs.logRetentionInDays (configuredBy conf) = 30%Z).
Proof.
  intros Hregion Hns Hprefix Hclient.
  rewrite Initialize_by_settings.
  apply String.eqb_neq in Hregion, Hns, Hprefix.
  rewrite Hregion, Hns, Hprefix. cbv zeta.
  destruct (provisioning_shape (configuredBy conf) w)
    as (err & w' & n & Hcalls & _).
  exists err, w'. eexists. split; [exact Hcalls|].
  split; [|split].
  - rewrite Hcalls.
    destruct Hclient as [[Hmode Hsession]|[Hmode Hset]].
    + apply String.eqb_neq in Hmode. rewrite Hmode, Hsession. reflexivity.
    + rewrite Hmode, Hset. reflexivity.
  - cbn. unfold retentionOf.
    destruct (GetInt "ecs.log.retention_days" =? 0)%Z eqn:Hdays;
      [discriminate|]. apply Z.eqb_neq. exact Hdays.
  - intros Hzero. cbn. unfold retentionOf. rewrite Hzero. reflexivity.
Qed.

(** X21.  A complete configuration without a client: outside test mode a session
    that fails to open, in test mode no client set beforehand.
    [Initialize] panics, and has called nothing. *)
Theorem Initialize_without_client_panics (cwl : logs.receiver) (w : W) :
  regionOf conf <> "" ->
  namespaceOf conf <> "" ->
  prefixOf conf <> "" ->
  (GetString "flotilla_mode" <> "test" /\ NewSession (regionOf conf) <> None) \/
  (GetString "flotilla_mode" = "test" /\ logs.logsClientSet cwl = false) ->
  logs.Initialize cwl w = (Panics, w, []).
Proof.
  intros Hregion Hns Hprefix Hclient.
  rewrite Initialize_by_settings.
  apply String.eqb_neq in Hregion, Hns, Hprefix.
  rewrite Hregion, Hns, Hprefix. cbv zeta.
  destruct Hclient as [[Hmode Hsession]|[Hmode Hset]].
  - apply String.eqb_neq in Hmode. rewrite Hmode. cbn [negb].
    destruct (NewSession (regionOf conf)); [reflexivity|congruence].
  - rewrite Hmode, Hset. reflexivity.
Qed.

End InitializationFacts.

(* ================================================================== *)
(** ** The further properties at concrete inputs *)
(* ================================================================== *)

Lemma fake_faulty_contract (retentionErr : option error) :
  ProvisioningContract (fake.faulty None None retentionErr) (fun w => w).
Proof.
  constructor.
  - intros name w. eexists. split; [reflexivity|].
    intros Hin. cbn. apply in_map_iff. exists name. split; [reflexivity|].
    apply filter_In. split; [exact Hin|apply prefix_refl].
  - intros name w w' H. cbn in H. inversion H; subst.
    apply in_or_app. right. left. reflexivity.
  - intros name days w r w' H. cbn in H.
    destruct retentionErr; inversion H; subst; trivial.
Qed.

Lemma load_failure_propagates_witness :
  let sm := fake.manager [] [] in
  let lc := fake.streamingClient in
  let e := MissingResource "no such run" in
  @services.Logs _ fake.constants sm lc "run-1" None []
    = (Returns ("", None, Some e), [], [SmGetRun "run-1"]) /\
  @services.LogsText _ fake.constants sm lc "run-1" (Sink 0) []
    = (Returns (Some e), [], [SmGetRun "run-1"]).
Proof.
  intros sm lc e.
  exact (@load_failure_propagates _ fake.constants sm lc "run-1" None (Sink 0)
           [] [] fake.noRun e eq_refl).
Defined.

Lemma lookup_success_delegates_witness :
  let r := fake.engineless "RUNNING" in
  let sm := fake.manager [r] [("task_definition", "abc", fake.executable)] in
  let lc := fake.logsClientOf (fake.answer [] (Some "f/1") None) in
  @services.Logs _ fake.constants sm lc "run-1" None []
  = (Returns ("", Some "f/1", None), [],
     [SmGetRun "run-1"; SmGetExecutableByTypeAndID "task_definition" "abc";
      LcLogs (Some fake.executable) (@explicitExecutable fake.constants r) None;
      AwsGetLogEvents {| LogGroupName := "flotilla";
                         LogStreamName := "p/c/abc123";
                         StartFromHead := true;
                         NextToken := None |}]).
Proof.
  intros r sm lc.
  exact (@lookup_success_delegates _ fake.constants sm lc "run-1" None
           [] [] [] r (Some fake.executable)
           eq_refl (or_introl eq_refl) eq_refl).
Defined.

Lemma Logs_lookup_failure_ecs_witness :
  let r := fake.run "RUNNING" "ecs" in
  let sm := fake.manager [r] [] in
  @services.Logs _ fake.constants sm fake.streamingClient "run-1" None []
  = (Returns ("", None, Some (MissingResource "no such executable")), [],
     [SmGetRun "run-1"; SmGetExecutableByTypeAndID "task_definition" "abc"]).
Proof.
  intros r sm.
  exact (@Logs_lookup_failure_ecs _ fake.constants sm fake.streamingClient
           "run-1" None [] [] [] r None
           (MissingResource "no such executable")
           eq_refl eq_refl eq_refl eq_refl).
Defined.

Lemma Logs_lookup_failure_other_engine_witness :
  let r := fake.run "RUNNING" "eks" in
  let sm := fake.manager [r] [] in
  @services.Logs _ fake.constants sm fake.streamingClient "run-1" None []
  = (Returns ("", None, None), [],
     [SmGetRun "run-1"; SmGetExecutableByTypeAndID "task_definition" "abc";
      LcLogs None (@explicitExecutable fake.constants r) None]).
Proof.
  intros r sm.
  refine (@Logs_lookup_failure_other_engine _ fake.constants sm
            fake.streamingClient "run-1" None [] [] [] r None
            (MissingResource "no such executable") "eks"
            eq_refl eq_refl eq_refl eq_refl _).
  cbn. discriminate.
Defined.

Lemma lookup_failure_without_engine_panics_witness :
  let r := fake.engineless "STOPPED" in
  let sm := fake.manager [r] [] in
  @services.Logs _ fake.constants sm fake.streamingClient "run-1" None []
  = (Panics, [],
     [SmGetRun "run-1"; SmGetExecutableByTypeAndID "task_definition" "abc"]).
Proof.
  intros r sm.
  exact (@lookup_failure_without_engine_panics _ fake.constants sm
           fake.streamingClient "run-1" None [] [] [] r None
           (MissingResource "no such executable")
           eq_refl (or_intror eq_refl) eq_refl eq_refl).
Defined.

Lemma LogsText_ignores_lookup_outcome_witness :
  let r := fake.engineless "RUNNING" in
  let sm := fake.manager [r] [] in
  @services.LogsText _ fake.constants sm fake.streamingClient "run-1" (Sink 0) []
  = (Returns None, [],
     [SmGetRun "run-1"; SmGetExecutableByTypeAndID "task_definition" "abc";
      LcLogsText None (@explicitExecutable fake.constants r) (Sink 0)]).
Proof.
  intros r sm.
  exact (@LogsText_ignores_lookup_outcome _ fake.constants sm
           fake.streamingClient "run-1" (Sink 0) [] [] [] r None
           (Some (MissingResource "no such executable"))
           eq_refl (or_introl eq_refl) eq_refl).
Defined.

Lemma LogsText_over_cloudwatch_witness :
  let r := fake.run "RUNNING" "ecs" in
  let sm := fake.manager [r] [("task_definition", "abc", fake.executable)] in
  let aws := fake.cloudwatch (fake.answer [] None None) in
  @services.LogsText _ fake.constants sm
    (@logs.asClient _ aws fake.runtime fake.client) "run-1" (Sink 0) []
  = (Returns
       (Some (Errorf "ECSCloudWatchLogsClient does not support LogsText method.")),
     [],
     [SmGetRun "run-1"; SmGetExecutableByTypeAndID "task_definition" "abc";
      LcLogsText (Some fake.executable)
                 (@explicitExecutable fake.constants r) (Sink 0)]).
Proof.
  intros r sm aws.
  exact (@LogsText_over_cloudwatch _ fake.constants sm aws fake.runtime
           fake.client "run-1" (Sink 0) [] [] r
           eq_refl (or_introl eq_refl)).
Defined.

Lemma tolerated_nil_descriptor_panics_witness :
  let r := fake.run "RUNNING" "eks" in
  let sm := fake.manager [r] [] in
  let aws := fake.cloudwatch (fake.answer [] None None) in
  @services.Logs _ fake.constants sm
    (@logs.asClient _ aws fake.runtime fake.client) "run-1" None []
  = (Panics, [],
     [SmGetRun "run-1"; SmGetExecutableByTypeAndID "task_definition" "abc";
      LcLogs None (@explicitExecutable fake.constants r) None]).
Proof.
  intros r sm aws.
  refine (@tolerated_nil_descriptor_panics _ fake.constants sm aws
            fake.runtime fake.client "run-1" None [] [] [] r
            (MissingResource "no such executable") "eks"
            eq_refl (or_introl eq_refl) eq_refl eq_refl _).
  cbn. discriminate.
Defined.

Lemma stream_handle_of_segment_witness :
  let whole := {| RunID := "run-2"; Status := "RUNNING";
                  ExecutableType := None; ExecutableID := None;
                  DefinitionID := "abc"; Engine := None;
                  TaskArn := "abc123" |} in
  let trailing := {| RunID := "run-3"; Status := "RUNNING";
                     ExecutableType := None; ExecutableID := None;
                     DefinitionID := "abc"; Engine := None;
                     TaskArn := "cluster/" |} in
  logs.toStreamName fake.client (Some fake.executable) whole
    = Returns "p/c/abc123" /\
  logs.toStreamName fake.client (Some fake.executable) trailing
    = Returns "p/c/".
Proof.
  intros whole trailing. split.
  - refine (stream_handle_of_segment fake.client fake.executable whole
              "abc123" (conj _ (or_introl eq_refl))).
    cbn. intuition discriminate.
  - refine (stream_handle_of_segment fake.client fake.executable trailing
              "" (conj _ (or_intror (ex_intro _ "cluster" eq_refl)))).
    cbn. intuition.
Defined.

Lemma Logs_wraps_other_failures_witness :
  let err := AwsError "AccessDeniedException" "AccessDeniedException: denied" in
  let aws := fake.cloudwatch (fake.answer [] None (Some err)) in
  @logs.Logs _ aws fake.runtime fake.client (Some fake.executable)
    (fake.run "RUNNING" "ecs") (Some "token-1") []
  = (Returns ("", None, Some (Wrap err "problem getting logs")), [],
     [AwsGetLogEvents {| LogGroupName := "flotilla";
                         LogStreamName := "p/c/abc123";
                         StartFromHead := true;
                         NextToken := Some "token-1" |}]) /\
  Error (Wrap err "problem getting logs")
  = "problem getting logs: AccessDeniedException: denied".
Proof.
  intros err aws.
  refine (@Logs_wraps_other_failures _ aws fake.runtime fake.client
            fake.executable (fake.run "RUNNING" "ecs") (Some "token-1")
            "p/c/abc123" {| Events := []; NextForwardToken := None |} err
            [] [] eq_refl eq_refl _ eq_refl).
  intros text. cbn. discriminate.
Defined.

Lemma Logs_resumes_from_cursor_witness :
  let aws := fake.cloudwatch (fake.answer [] (Some "f/2") None) in
  exists handle o w' rest,
    logs.toStreamName fake.client (Some fake.executable)
      (fake.run "RUNNING" "ecs") = Returns handle /\
    @logs.Logs _ aws fake.runtime fake.client (Some fake.executable)
      (fake.run "RUNNING" "ecs") (Some "f/1") []
    = (o, w',
       AwsGetLogEvents {| LogGroupName := "flotilla";
                          LogStreamName := handle;
                          StartFromHead := true;
                          NextToken := Some "f/1" |} :: rest).
Proof.
  intros aws.
  refine (@Logs_resumes_from_cursor _ aws fake.runtime fake.client
            fake.executable (fake.run "RUNNING" "ecs") "f/1" [] _).
  discriminate.
Defined.

Lemma namespaceExists_exact_witness :
  let aws := fake.cloudwatch (fake.answer [] None None) in
  exists found,
    @logs.namespaceExists _ aws fake.client ["flotilla-staging"]
    = (Returns (found, None), ["flotilla-staging"],
       [AwsDescribeLogGroups "flotilla"]) /\
    (found = true <->
     In {| GroupName := "flotilla" |} [{| GroupName := "flotilla-staging" |}]).
Proof.
  intros aws.
  exact (@namespaceExists_exact _ aws fake.client
           ["flotilla-staging"] ["flotilla-staging"]
           {| LogGroups := [{| GroupName := "flotilla-staging" |}] |} eq_refl).
Defined.

Lemma provisioning_query_failure_witness :
  let e := AwsError "AccessDeniedException" "AccessDeniedException: denied" in
  let aws := fake.faulty (Some e) None None in
  exists failure,
    @logs.createNamespaceIfNotExists _ aws fake.client []
    = (Returns (Some failure), [], [AwsDescribeLogGroups "flotilla"]) /\
    Error failure
    = "problem checking if log namespace [flotilla] exists: problem describing log groups with prefix [flotilla]: AccessDeniedException: denied".
Proof.
  intros e aws. eexists.
  exact (@provisioning_query_failure _ aws fake.client [] []
           {| LogGroups := [] |} e eq_refl).
Defined.

Lemma provisioning_creation_failure_witness :
  let e := AwsError "LimitExceededException" "LimitExceededException: limit" in
  let aws := fake.faulty None (Some e) None in
  @logs.createNamespaceIfNotExists _ aws fake.client ["flotilla-staging"]
  = (Returns (Some (Wrap e
       "problem creating log group with log group name [flotilla]")),
     ["flotilla-staging"],
     [AwsDescribeLogGroups "flotilla"; AwsCreateLogGroup "flotilla"]).
Proof.
  intros e aws.
  refine (@provisioning_creation_failure _ aws fake.client
            ["flotilla-staging"] ["flotilla-staging"] ["flotilla-staging"]
            {| LogGroups := [{| GroupName := "flotilla-staging" |}] |} e
            eq_refl _ eq_refl).
  cbn. intuition discriminate.
Defined.

Lemma provisioning_creates_with_retention_witness :
  let aws := fake.cloudwatch (fake.answer [] None None) in
  @logs.createNamespaceIfNotExists _ aws fake.client ["flotilla-staging"]
  = (Returns None, ["flotilla-staging"; "flotilla"],
     [AwsDescribeLogGroups "flotilla"; AwsCreateLogGroup "flotilla";
      AwsPutRetentionPolicy "flotilla" 30]).
Proof.
  intros aws.
  refine (@provisioning_creates_with_retention _ aws fake.client
            ["flotilla-staging"] ["flotilla-staging"]
            ["flotilla-staging"; "flotilla"] ["flotilla-staging"; "flotilla"]
            {| LogGroups := [{| GroupName := "flotilla-staging" |}] |}
            eq_refl _ eq_refl eq_refl).
  cbn. intuition discriminate.
Defined.

Lemma retention_failure_is_not_repaired_witness :
  let e := AwsError "ServiceUnavailableException" "ServiceUnavailableException: try later" in
  let aws := fake.faulty None None (Some e) in
  @logs.createNamespaceIfNotExists _ aws fake.client []
  = (Returns (Some (Wrap e
       "problem setting log group retention policy for log group name [flotilla]")),
     ["flotilla"],
     [AwsDescribeLogGroups "flotilla"; AwsCreateLogGroup "flotilla";
      AwsPutRetentionPolicy "flotilla" 30]) /\
  @logs.createNamespaceIfNotExists _ aws fake.client ["flotilla"]
  = (Returns None, ["flotilla"], [AwsDescribeLogGroups "flotilla"]).
Proof.
  intros e aws.
  refine (@retention_failure_is_not_repaired _ aws fake.client (fun w => w)
            (fake_faulty_contract (Some e)) [] [] ["flotilla"] ["flotilla"]
            {| LogGroups := [] |} e eq_refl _ eq_refl eq_refl).
  cbn. intuition.
Defined.

Lemma Initialize_rejects_incomplete_config_witness :
  let aws := fake.cloudwatch (fake.answer [] None None) in
  let conf := fake.config [("awslogs-region", "us-east-1");
                           ("awslogs-group", "flotilla")] [] [] in
  prefixOf conf = "" /\
  exists cwl' message,
    @logs.Initialize _ aws conf (fake.sessions None) fake.blank []
      = (Returns (cwl', Some (Errorf message)), [], []) /\
    message =
      "ECSCloudWatchLogsClient needs [ecs.log.driver.options.awslogs-stream-prefix] set in config" /\
    logs.logsClientSet cwl' = false /\
    logs.loggerSet cwl' = false /\
    logs.logRetentionInDays (logs.fields cwl') = 0%Z /\
    (regionOf conf = "" -> cwl' = fake.blank).
Proof.
  intros aws conf. split; [reflexivity|].
  exact (@Initialize_rejects_incomplete_config _ aws conf (fake.sessions None)
           fake.blank [] (or_intror (or_intror eq_refl))).
Defined.

Lemma Initialize_provisions_witness :
  let aws := fake.cloudwatch (fake.answer [] None None) in
  let conf := fake.config [("awslogs-region", "us-east-1");
                           ("awslogs-group", "driver-group");
                           ("awslogs-stream-prefix", "p")]
                          [("ecs.log.namespace", "flotilla")] [] in
  configuredBy conf = fake.client /\
  exists err w' t,
    @logs.createNamespaceIfNotExists _ aws (configuredBy conf) []
      = (Returns err, w', t) /\
    @logs.Initialize _ aws conf (fake.sessions None) fake.blank []
      = (Returns ({| logs.fields := configuredBy conf;
                     logs.logsClientSet := true;
                     logs.loggerSet := true |}, err), w', t) /\
    logs.logRetentionInDays (configuredBy conf) <> 0%Z /\
    (@GetInt conf "ecs.log.retention_days" = 0%Z ->
     logs.logRetentionInDays (configuredBy conf) = 30%Z).
Proof.
  intros aws conf. split; [reflexivity|].
  refine (@Initialize_provisions _ aws conf (fake.sessions None) fake.blank []
            _ _ _ (or_introl (conj _ eq_refl))); cbn; discriminate.
Defined.

Lemma Initialize_without_client_panics_witness :
  let aws := fake.cloudwatch (fake.answer [] None None) in
  let conf := fake.config [("awslogs-region", "us-east-1");
                           ("awslogs-group", "flotilla");
                           ("awslogs-stream-prefix", "p")]
                          [("flotilla_mode", "test")] [] in
  @logs.Initialize _ aws conf (fake.sessions None) fake.blank []
  = (Panics, [], []).
Proof.
  intros aws conf.
  refine (@Initialize_without_client_panics _ aws conf (fake.sessions None)
            fake.blank [] _ _ _ (or_intror (conj eq_refl eq_refl)));
    cbn; discriminate.
Defined.

Lemma Logs_fetches_once_witness :
  let err := AwsError "ThrottlingException" "ThrottlingException: Rate exceeded" in
  let aws := fake.cloudwatch (fake.answer [] None (Some err)) in
  exists segment o rest,
    finalSegment "/"%char "arn:aws:ecs:task/abc123" segment /\
    let request :=
      {| LogGroupName := "flotilla";
         LogStreamName := "p/c/" ++ segment;
         StartFromHead := true;
         NextToken := Some "token-1" |} in
    @logs.Logs _ aws fake.runtime fake.client (Some fake.executable)
      (fake.run "RUNNING" "ecs") (Some "token-1") []
    = (o, [], AwsGetLogEvents request :: rest) /\
    forallb isLogLine rest = true /\
    (length rest <= 1)%nat.
Proof.
  intros err aws.
  exact (@Logs_fetches_once _ aws fake.runtime fake.client fake.executable
           (fake.run "RUNNING" "ecs") (Some "token-1") []).
Defined.

Lemma provisioning_calls_witness :
  let e := AwsError "LimitExceededException" "LimitExceededException: limit" in
  let aws := fake.faulty None (Some e) None in
  exists o w' n,
    @logs.createNamespaceIfNotExists _ aws fake.client ["flotilla-staging"]
    = (o, w',
       firstn (S n)
         [AwsDescribeLogGroups "flotilla"; AwsCreateLogGroup "flotilla";
          AwsPutRetentionPolicy "flotilla" 30]) /\
    (n <= 2)%nat /\
    (o = Returns None -> n = 0%nat \/ n = 2%nat) /\
    ((1 <= n)%nat ->
     exists out,
       ({| LogGroups := [{| GroupName := "flotilla-staging" |}] |}, None)
       = (out, @None error) /\
       ~ In {| GroupName := "flotilla" |} (LogGroups out)) /\
    (n = 2%nat -> Some e = None).
Proof.
  intros e aws.
  exact (@provisioning_calls _ aws fake.client ["flotilla-staging"]).
Defined.
